(** * comparelist: a shallow embedding of [app.py]

    The Flask application keeps two SQLite relations, [items(id, name)] and
    [comparisons(item1_id, item2_id, score)], and derives a rank for every
    item from the comparison log.  This file embeds the request handlers of
    [app.py] over an explicit model of the connection, the logger and the
    responses, and proves the properties of the ranking and of the handlers.

    Conventions of the embedding:
    - Python [str] values are strings over the code points 0..255; on that
      range [str.strip] and [int] are embedded exactly.  [str.strip] takes
      off U+0009..U+000D, U+001C..U+0020, U+0085 and U+00A0; [int] skips
      U+0009..U+000D, U+0020, U+0085 and U+00A0 only, and the only decimal
      digits are 0..9.  [int] refuses a text of more than 4300 digits,
      CPython's default limit.
    - SQLite values are NULL, INTEGER and TEXT; REAL and BLOB values are
      left out.  No handler binds one, but a column of INTEGER affinity
      turns a text that is a real literal, or an integer beyond 64 bits,
      into a number the embedding does not have: [affinity_exact] says for
      which texts the column affinity is embedded exactly, and the
      statements that depend on a stored id assume it.
    - an exception is a class and the text [str(e)] gives. *)

From Stdlib Require Import ZArith List Bool Ascii String DecimalString.
From Stdlib Require Import Lia Permutation Sorted.
Import ListNotations.
Open Scope string_scope.
Open Scope list_scope.
Open Scope Z_scope.

(** String concatenation, as in an f-string. *)
Infix "+++" := String.append (at level 60, right associativity).

(** ** Exceptions and results *)

Inductive exn_class :=
| KeyError | ValueError | TypeError | OverflowError
| OperationalError | IntegrityError
| OtherException.

Record exn := Exn { exn_cls : exn_class; exn_str : string }.

Inductive result (A : Type) :=
| Ok (a : A)
| Raise (e : exn).
Arguments Ok {A} a.
Arguments Raise {A} e.

Definition rbind {A B} (r : result A) (k : A -> result B) : result B :=
  match r with
  | Ok a => k a
  | Raise e => Raise e
  end.

Notation "'let?' x ':=' r 'in' k" := (rbind r (fun x => k))
  (at level 10, x name, r at level 100, k at level 200).

(** ** Python strings *)

Definition code (c : ascii) : Z := Z.of_N (N_of_ascii c).

(** [str.isspace] on one character. *)
Definition is_space (c : ascii) : bool :=
  let n := code c in
  ((9 <=? n) && (n <=? 13)) || ((28 <=? n) && (n <=? 32))
  || (n =? 133) || (n =? 160).

Fixpoint ltrim (sp : ascii -> bool) (s : string) : string :=
  match s with
  | EmptyString => EmptyString
  | String c r => if sp c then ltrim sp r else s
  end.

Fixpoint rtrim (sp : ascii -> bool) (s : string) : string :=
  match s with
  | EmptyString => EmptyString
  | String c r =>
      match rtrim sp r with
      | EmptyString => if sp c then EmptyString else String c EmptyString
      | r' => String c r'
      end
  end.

(** [s.strip()] *)
Definition strip (s : string) : string := rtrim is_space (ltrim is_space s).

(** Truth value of a string: the empty string is false. *)
Definition str_bool (s : string) : bool :=
  match s with
  | EmptyString => false
  | String _ _ => true
  end.

(** [pat in s] *)
Definition str_contains (pat s : string) : bool :=
  match String.index 0 pat s with
  | Some _ => true
  | None => false
  end.

(** ** [int] on strings: [ws* [+-]? digit (_? digit)* ws*] in base 10 *)

Definition digit_value (c : ascii) : option Z :=
  let n := code c in
  if (48 <=? n) && (n <=? 57) then Some (n - 48) else None.

Definition is_underscore (c : ascii) : bool := code c =? 95.

(** The rest of a literal after a digit: digits, each optionally preceded
    by one underscore. *)
Fixpoint digits_from (acc : Z) (s : string) : option Z :=
  match s with
  | EmptyString => Some acc
  | String c r =>
      if is_underscore c then
        match r with
        | EmptyString => None
        | String d r' =>
            match digit_value d with
            | Some v => digits_from (10 * acc + v) r'
            | None => None
            end
        end
      else
        match digit_value c with
        | Some v => digits_from (10 * acc + v) r
        | None => None
        end
  end.

Definition unsigned_literal (s : string) : option Z :=
  match s with
  | EmptyString => None
  | String c r =>
      match digit_value c with
      | Some v => digits_from v r
      | None => None
      end
  end.

Definition signed_literal (s : string) : option Z :=
  match s with
  | String c r =>
      if code c =? 43 then unsigned_literal r
      else if code c =? 45 then option_map Z.opp (unsigned_literal r)
      else unsigned_literal s
  | EmptyString => None
  end.

Definition chr (n : Z) : ascii := ascii_of_N (Z.to_N n).

Definition hex_digit (n : Z) : ascii :=
  if n <? 10 then chr (48 + n) else chr (87 + n).

(** [str.isprintable] on one character. *)
Definition printable (c : ascii) : bool :=
  let n := code c in
  negb ((n <? 32) || ((127 <=? n) && (n <=? 160)) || (n =? 173)).

Fixpoint has_char (n : Z) (s : string) : bool :=
  match s with
  | EmptyString => false
  | String c r => (code c =? n) || has_char n r
  end.

Definition repr_char (quote : Z) (c : ascii) : string :=
  let n := code c in
  if (n =? 92) || (n =? quote) then String (chr 92) (String c EmptyString)
  else if n =? 9 then "\t"
  else if n =? 10 then "\n"
  else if n =? 13 then "\r"
  else if printable c then String c EmptyString
  else String (chr 92)
         (String (chr 120)
            (String (hex_digit (n / 16))
               (String (hex_digit (n mod 16)) EmptyString))).

Fixpoint repr_body (quote : Z) (s : string) : string :=
  match s with
  | EmptyString => EmptyString
  | String c r => repr_char quote c +++ repr_body quote r
  end.

(** [repr(s)]: between apostrophes, or between quotation marks when [s] has
    an apostrophe and no quotation mark. *)
Definition py_repr (s : string) : string :=
  let quote := if has_char 39 s && negb (has_char 34 s) then 34 else 39 in
  String (chr quote) (repr_body quote s +++ String (chr quote) EmptyString).

Definition invalid_literal (s : string) : exn :=
  Exn ValueError ("invalid literal for int() with base 10: " +++ py_repr s).

Fixpoint count_digits (s : string) : Z :=
  match s with
  | EmptyString => 0
  | String c r =>
      match digit_value c with
      | Some _ => 1 + count_digits r
      | None => count_digits r
      end
  end.

(** [sys.get_int_max_str_digits()] *)
Definition int_max_str_digits : Z := 4300.

Definition too_many_digits (n : Z) : exn :=
  Exn ValueError
    ("Exceeds the limit (4300 digits) for integer string conversion: value has "
     +++ NilZero.string_of_int (Z.to_int n)
     +++ " digits; use sys.set_int_max_str_digits() to increase the limit").

(** The white space [int] skips around a literal: the ASCII white space,
    and the white space beyond U+007F.  U+001C..U+001F are not skipped. *)
Definition int_is_space (c : ascii) : bool :=
  let n := code c in
  ((9 <=? n) && (n <=? 13)) || (n =? 32) || (n =? 133) || (n =? 160).

Definition int_trim (s : string) : string :=
  rtrim int_is_space (ltrim int_is_space s).

(** [int(s)] for a string [s] *)
Definition int_of_str (s : string) : result Z :=
  match signed_literal (int_trim s) with
  | Some z =>
      if int_max_str_digits <? count_digits (int_trim s) then
        Raise (too_many_digits (count_digits (int_trim s)))
      else Ok z
  | None => Raise (invalid_literal s)
  end.
Arguments int_of_str : simpl never.

(** ** Values

    The [sqlite3] module maps NULL, INTEGER and TEXT to [None], [int] and
    [str]; one type serves for what Python holds and what a column stores. *)

Inductive value :=
| VNone
| VInt (z : Z)
| VStr (s : string).

(** [int(v)] *)
Definition py_int (v : value) : result Z :=
  match v with
  | VNone =>
      Raise (Exn TypeError
        "int() argument must be a string, a bytes-like object or a real number, not 'NoneType'")
  | VInt z => Ok z
  | VStr s => int_of_str s
  end.

Definition in_int64 (z : Z) : bool :=
  (- 2 ^ 63 <=? z) && (z <? 2 ^ 63).

(** Binding a Python value as a statement parameter: an [int] outside the
    64-bit range is refused by the [sqlite3] module. *)
Definition bind_param (v : value) : result value :=
  match v with
  | VInt z =>
      if in_int64 z then Ok v
      else Raise (Exn OverflowError
                    "Python int too large to convert to SQLite INTEGER")
  | _ => Ok v
  end.
Arguments bind_param : simpl never.

(** ** The schema *)

Definition sql_is_space (c : ascii) : bool :=
  let n := code c in ((9 <=? n) && (n <=? 13)) || (n =? 32).

Fixpoint plain_digits (acc : Z) (s : string) : option Z :=
  match s with
  | EmptyString => Some acc
  | String c r =>
      match digit_value c with
      | Some v => plain_digits (10 * acc + v) r
      | None => None
      end
  end.

Definition plain_unsigned (s : string) : option Z :=
  match s with
  | EmptyString => None
  | String _ _ => plain_digits 0 s
  end.

(** A well-formed integer literal of SQLite, surrounding blanks allowed,
    whose value fits 64 bits. *)
Definition sql_integer_literal (s : string) : option Z :=
  let t := rtrim sql_is_space (ltrim sql_is_space s) in
  let r :=
    match t with
    | String c r =>
        if code c =? 43 then plain_unsigned r
        else if code c =? 45 then option_map Z.opp (plain_unsigned r)
        else plain_unsigned t
    | EmptyString => None
    end in
  match r with
  | Some z => if in_int64 z then Some z else None
  | None => None
  end.

(** Modelled from the spec: [schema.sql] is not among the sources.  The spec
    gives the relations [items(id, name)] and
    [comparisons(item1_id, item2_id, score)], with [id] a unique integer
    assigned by the store, [name] a string, the three columns of
    [comparisons] integers, and no constraint between the two relations.
    So [id] is the row id of [items], [name] keeps the text it is given,
    and the columns of [comparisons] have INTEGER affinity: a text that is
    an integer literal is stored as that integer, a text that is no numeric
    literal is kept.  A text that is a real literal, or an integer beyond
    64 bits, is stored by SQLite as a number the value type does not have;
    the function keeps it as text, and [affinity_exact] below names the
    texts on which the function is exact. *)
Definition integer_affinity (v : value) : value :=
  match v with
  | VStr s =>
      match sql_integer_literal s with
      | Some z => VInt z
      | None => v
      end
  | _ => v
  end.

Record item := { item_id : Z; item_name : string }.

Record comparison :=
  { item1_id : value; item2_id : value; score : value }.

(** A relation is its rows in storage order, or the error every statement
    on it raises (the table is missing, the file cannot be read, ...). *)
Definition table (A : Type) : Type := result (list A).

Record database :=
  { items : table item; comparisons : table comparison }.

(** [col = ?] for a column of INTEGER affinity and an integer parameter:
    NULL and TEXT never compare equal to an integer. *)
Definition sql_eq_int (v : value) (p : Z) : bool :=
  match v with
  | VInt z => z =? p
  | _ => false
  end.

(** The row id given to a new row of [items]: one more than the largest in
    use, 1 in an empty table. *)
Definition next_rowid (l : list item) : Z :=
  match l with
  | [] => 1
  | i :: r => fold_right Z.max (item_id i) (map item_id r) + 1
  end.

(** ** The connection, the logger and the handler monad *)

(** [current] is what the connection sees, its own uncommitted writes
    included; [committed] is what [commit] last made durable. *)
Record connection := { current : database; committed : database }.

Inductive level := WARNING | ERROR.

Record log_record := { lvl : level; text : string }.

(** [entropy i] is the value [RANDOM()] yields for the i-th row. *)
Record world :=
  { conn : connection; logs : list log_record; entropy : nat -> Z }.

Definition M (A : Type) : Type := world -> result A * world.

Definition ret {A} (a : A) : M A := fun w => (Ok a, w).

Definition raise {A} (e : exn) : M A := fun w => (Raise e, w).

Definition bind {A B} (m : M A) (k : A -> M B) : M B :=
  fun w =>
    match m w with
    | (Ok a, w') => k a w'
    | (Raise e, w') => (Raise e, w')
    end.

Notation "x <- m ;; k" := (bind m (fun x => k))
  (at level 61, m at next level, right associativity).
Notation "m ;; k" := (bind m (fun _ => k))
  (at level 61, right associativity).

Definition lift {A} (r : result A) : M A := fun w => (r, w).

(** [try: body except ...: handler] *)
Definition try_except {A} (body : M A) (handler : exn -> M A) : M A :=
  fun w =>
    match body w with
    | (Raise e, w') => handler e w'
    | (Ok a, w') => (Ok a, w')
    end.

Definition set_conn (c : connection) (w : world) : world :=
  {| conn := c; logs := logs w; entropy := entropy w |}.

Definition set_current (d : database) (w : world) : world :=
  set_conn {| current := d; committed := committed (conn w) |} w.

Definition logger (l : level) (msg : string) : M unit :=
  fun w =>
    (Ok tt,
     {| conn := conn w; logs := logs w ++ [ {| lvl := l; text := msg |} ];
        entropy := entropy w |}).

(** [conn.commit()] and [conn.rollback()] *)
Definition commit : M unit :=
  fun w =>
    (Ok tt,
     set_conn {| current := current (conn w);
                 committed := current (conn w) |} w).

Definition rollback : M unit :=
  fun w =>
    (Ok tt,
     set_conn {| current := committed (conn w);
                 committed := committed (conn w) |} w).

(** ** Sorting

    Insertion of [x] in front of the first element it may precede; sorting
    a list from its right end this way keeps elements that compare equal in
    their original order, as [list.sort] does (with [reverse=True] too). *)

Section Sort.
Context {A : Type}.
Variable before : A -> A -> bool.

Fixpoint insert_by (x : A) (l : list A) : list A :=
  match l with
  | [] => [x]
  | y :: l' => if before x y then x :: l else y :: insert_by x l'
  end.

Definition sort_by (l : list A) : list A := fold_right insert_by [] l.
End Sort.

(** ** Statements *)

(** [SELECT id, name FROM items] *)
Definition select_items : M (list item) :=
  fun w => (items (current (conn w)), w).

(** [ORDER BY RANDOM()]: every row gets a random key, rows go by key. *)
Definition order_by_random (rnd : nat -> Z) (l : list item) : list item :=
  map snd
    (sort_by (fun a b => fst a <=? fst b)
       (combine (map rnd (seq 0 (List.length l))) l)).

(** [SELECT id, name FROM items ORDER BY RANDOM() LIMIT 2] *)
Definition select_two_random_items : M (list item) :=
  fun w =>
    match items (current (conn w)) with
    | Ok l => (Ok (firstn 2 (order_by_random (entropy w) l)), w)
    | Raise e => (Raise e, w)
    end.

(** [SELECT count(id) FROM items], [fetchone()]: always one row. *)
Definition select_count_items : M (option Z) :=
  fun w =>
    match items (current (conn w)) with
    | Ok l => (Ok (Some (Z.of_nat (List.length l))), w)
    | Raise e => (Raise e, w)
    end.

(** [INSERT INTO items (name) VALUES (?)] *)
Definition insert_item (name : string) : M unit :=
  fun w =>
    let d := current (conn w) in
    match items d with
    | Ok l =>
        (Ok tt,
         set_current
           {| items := Ok (l ++ [ {| item_id := next_rowid l;
                                     item_name := name |} ]);
              comparisons := comparisons d |} w)
    | Raise e => (Raise e, w)
    end.

(** [INSERT INTO comparisons (item1_id, item2_id, score) VALUES (?, ?, ?)]:
    the statement is compiled (the table must be there), the parameters are
    bound, the row is appended with the column affinity applied. *)
Definition insert_comparison (p1 p2 p3 : value) : M unit :=
  fun w =>
    let d := current (conn w) in
    match comparisons d with
    | Ok l =>
        match (let? b1 := bind_param p1 in
               let? b2 := bind_param p2 in
               let? b3 := bind_param p3 in
               Ok {| item1_id := integer_affinity b1;
                     item2_id := integer_affinity b2;
                     score := integer_affinity b3 |}) with
        | Ok row =>
            (Ok tt,
             set_current
               {| items := items d; comparisons := Ok (l ++ [row]) |} w)
        | Raise e => (Raise e, w)
        end
    | Raise e => (Raise e, w)
    end.

(** The WHERE clause [item1_id = ? OR item2_id = ?], both parameters [p]. *)
Definition mentions (p : Z) (c : comparison) : bool :=
  sql_eq_int (item1_id c) p || sql_eq_int (item2_id c) p.

(** [SELECT score, item1_id, item2_id FROM comparisons
     WHERE item1_id = ? OR item2_id = ?] *)
Definition select_comparisons_for (p : Z) : M (list comparison) :=
  fun w =>
    match comparisons (current (conn w)) with
    | Ok l =>
        match bind_param (VInt p) with
        | Ok _ => (Ok (filter (mentions p) l), w)
        | Raise e => (Raise e, w)
        end
    | Raise e => (Raise e, w)
    end.

(** ** Requests and responses *)

(** [request.form]: the first value of a key is the one looked up. *)
Definition multidict := list (string * string).

Fixpoint form_get (form : multidict) (k : string) : option string :=
  match form with
  | [] => None
  | (k', v) :: rest => if String.eqb k' k then Some v else form_get rest k
  end.

(** [request.form[k]] *)
Definition form_getitem (form : multidict) (k : string) : result string :=
  match form_get form k with
  | Some v => Ok v
  | None =>
      Raise (Exn KeyError
        "400 Bad Request: The browser (or proxy) sent a request that this server could not understand.")
  end.

Record ranked_item := { id : Z; name : string; rank : Z }.

Inductive context :=
| CompareCtx (item1 item2 : item)
| IndexCtx (items : list ranked_item).

Inductive response :=
| Render (template : string) (ctx : context)
| Text (status : Z) (body : string)
| Redirect (location : string).

Definition url_for (endpoint : string) : string :=
  if String.eqb endpoint "index" then "/"
  else if String.eqb endpoint "compare_items" then "/compare"
  else if String.eqb endpoint "record_comparison" then "/record_comparison"
  else "/database".

Definition redirect (location : string) : response := Redirect location.

Inductive http_method := GET | POST.

(** ** The handlers of [app.py] *)

Definition compare_items : M response :=
  try_except
    (items <- select_two_random_items;;
     match items with
     | [i0; i1] => ret (Render "compare.html" (CompareCtx i0 i1))
     | _ =>
         item_count_row <- select_count_items;;
         match item_count_row with
         | Some n =>
             if n <? 2 then
               ret (Text 200
                 "Not enough items in the database to compare (need at least 2).")
             else ret (Text 200 "Could not fetch two distinct items.")
         | None => ret (Text 200 "Could not fetch two distinct items.")
         end
     end)
    (fun e =>
       match exn_cls e with
       | OperationalError =>
           logger ERROR ("Database error in /compare: " +++ exn_str e);;
           if str_contains "no such table: items" (exn_str e) then
             ret (Text 500 "Database not initialized. Run 'flask init-db' first.")
           else ret (Text 500 ("Database error: " +++ exn_str e))
       | _ => raise e
       end).

(** The [try] statement of [record_comparison] yields [Some r] where a
    clause returns [r], and [None] where control leaves the statement. *)
Definition record_comparison (form : multidict) : M response :=
  returned <-
    try_except
      (item1_id <- lift (form_getitem form "item1_id");;
       item2_id <- lift (form_getitem form "item2_id");;
       preference <- lift (let? p := form_getitem form "preference" in
                           int_of_str p);;
       insert_comparison (VStr item1_id) (VStr item2_id) (VInt preference);;
       commit;;
       ret None)
      (fun e =>
         match exn_cls e with
         | KeyError | ValueError =>
             logger WARNING
               ("Invalid form data for comparison: " +++ exn_str e);;
             rollback;;
             ret None
         | IntegrityError =>
             logger WARNING
               ("Integrity error during comparison insert: " +++ exn_str e);;
             rollback;;
             ret None
         | OperationalError =>
             logger ERROR
               ("Database error in /record_comparison: " +++ exn_str e);;
             ret (Some (Text 500 ("Database error: " +++ exn_str e
                                  +++ ". Did you run 'flask init-db'?")))
         | _ =>
             logger ERROR
               ("Unexpected error in /record_comparison: " +++ exn_str e);;
             rollback;;
             ret (Some (Text 500 "An unexpected error occurred."))
         end);;
  match returned with
  | Some r => ret r
  | None => ret (redirect (url_for "index"))
  end.

(** One turn of the loop of [calculate_relative_rank]. *)
Definition rank_step (item_id_int total_score : Z) (c : comparison)
  : result Z :=
  let? comp_item1_id := py_int (item1_id c) in
  let? comp_item2_id := py_int (item2_id c) in
  if comp_item1_id =? item_id_int then
    let? s := py_int (score c) in Ok (total_score + s)
  else if comp_item2_id =? item_id_int then
    let? s := py_int (score c) in Ok (total_score - s)
  else Ok total_score.

Fixpoint rank_loop (item_id_int total_score : Z) (l : list comparison)
  : result Z :=
  match l with
  | [] => Ok total_score
  | c :: rest =>
      let? t := rank_step item_id_int total_score c in
      rank_loop item_id_int t rest
  end.

(** [str(v)], as an f-string renders a value *)
Definition value_str (v : value) : string :=
  match v with
  | VNone => "None"
  | VInt z => NilZero.string_of_int (Z.to_int z)
  | VStr s => s
  end.

Definition calculate_relative_rank (item_id : value) : M Z :=
  try_except
    (item_id_int <- lift (py_int item_id);;
     comparisons <- select_comparisons_for item_id_int;;
     lift (rank_loop item_id_int 0 comparisons))
    (fun e =>
       match exn_cls e with
       | OperationalError =>
           logger WARNING
             ("Database error calculating rank for item " +++ value_str item_id
              +++ ": " +++ exn_str e);;
           ret 0
       | ValueError | TypeError =>
           logger WARNING
             ("Invalid data format during rank calculation for item "
              +++ value_str item_id +++ ": " +++ exn_str e);;
           ret 0
       | _ =>
           logger ERROR
             ("Unexpected error calculating rank for item "
              +++ value_str item_id +++ ": " +++ exn_str e);;
           ret 0
       end).

(** The loop of [index] that fills [ranked_items]. *)
Fixpoint rank_items (items_data : list item) (ranked_items : list ranked_item)
  : M (list ranked_item) :=
  match items_data with
  | [] => ret ranked_items
  | item :: rest =>
      rank <- calculate_relative_rank (VInt (item_id item));;
      rank_items rest
        (ranked_items ++ [ {| id := item_id item; name := item_name item;
                              rank := rank |} ])
  end.

(** [ranked_items.sort(key=lambda x: x['rank'], reverse=True)] *)
Definition sort_ranked (l : list ranked_item) : list ranked_item :=
  sort_by (fun x y => rank y <=? rank x) l.

Definition index (method : http_method) (form : multidict) : M response :=
  match method with
  | POST =>
      returned <-
        match form_get form "item_name" with
        | Some item_name =>
            if str_bool item_name && str_bool (strip item_name) then
              try_except
                (insert_item (strip item_name);;
                 commit;;
                 ret None)
                (fun e =>
                   match exn_cls e with
                   | OperationalError =>
                       logger ERROR
                         ("Database error adding item in /: " +++ exn_str e);;
                       ret (Some (Text 500
                              ("Database error: " +++ exn_str e
                               +++ ". Did you run 'flask init-db'?")))
                   | _ =>
                       logger ERROR
                         ("Unexpected error adding item in /: " +++ exn_str e);;
                       rollback;;
                       ret (Some (Text 500
                              "An unexpected error occurred while adding the item."))
                   end)
            else ret None
        | None => ret None
        end;;
      match returned with
      | Some r => ret r
      | None => ret (redirect (url_for "index"))
      end
  | GET =>
      returned <-
        try_except
          (items_data <- select_items;;
           ranked_items <- rank_items items_data [];;
           ret (inr (sort_ranked ranked_items)))
          (fun e =>
             match exn_cls e with
             | OperationalError =>
                 logger ERROR
                   ("Database error fetching items in /: " +++ exn_str e);;
                 if str_contains "no such table: items" (exn_str e) then
                   ret (inl (Text 500
                          "Database not initialized. Run 'flask init-db' first."))
                 else ret (inl (Text 500 ("Database error: " +++ exn_str e)))
             | _ =>
                 logger ERROR
                   ("Unexpected error fetching items in /: " +++ exn_str e);;
                 ret (inl (Text 500
                        "An unexpected error occurred while fetching items."))
             end);;
      match returned with
      | inl r => ret r
      | inr ranked_items => ret (Render "index.html" (IndexCtx ranked_items))
      end
  end.

(** ** Serving a request

    [before_request] opens a connection on the stored database, the handler
    runs, [close_db] closes the connection: what was not committed is lost.
    An exception that leaves the handler becomes Flask's own 500 page. *)

Record outcome :=
  { resp : response; db_after : database; logged : list log_record }.

Definition open_connection (rnd : nat -> Z) (d : database) : world :=
  {| conn := {| current := d; committed := d |}; logs := []; entropy := rnd |}.

Definition serve (h : M response) (rnd : nat -> Z) (d : database) : outcome :=
  match h (open_connection rnd d) with
  | (Ok r, w') =>
      {| resp := r; db_after := committed (conn w'); logged := logs w' |}
  | (Raise e, w') =>
      {| resp := Text 500 "Internal Server Error";
         db_after := committed (conn w'); logged := logs w' |}
  end.

(** ** Vocabulary of the statements *)

(** [m] run in [w] returns [a] (and does not raise). *)
Definition returns {A} (m : M A) (w : world) (a : A) : Prop :=
  fst (m w) = Ok a.

(** What [calculate_relative_rank] gives for the item of id [x]. *)
Definition rank_of (w : world) (x : Z) : Z :=
  match fst (calculate_relative_rank (VInt x) w) with
  | Ok z => z
  | Raise _ => 0
  end.

(** The entry of the listing for a row of [items]. *)
Definition entry (w : world) (i : item) : ranked_item :=
  {| id := item_id i; name := item_name i; rank := rank_of w (item_id i) |}.

Definition add_logs (lg : list log_record) (w : world) : world :=
  {| conn := conn w; logs := logs w ++ lg; entropy := entropy w |}.

(** The computation of [calculate_relative_rank] inside its [try], on the
    relation the connection sees. *)
Definition rank_body (v : value) (tbl : table comparison) : result Z :=
  let? x := py_int v in
  let? l := tbl in
  let? _ := bind_param (VInt x) in
  rank_loop x 0 (filter (mentions x) l).

Definition or_zero (r : result Z) : Z :=
  match r with
  | Ok z => z
  | Raise _ => 0
  end.

Definition parses (v : value) : bool :=
  match py_int v with
  | Ok _ => true
  | Raise _ => false
  end.

(** All three fields of the row convert with [int]. *)
Definition row_parses (c : comparison) : bool :=
  parses (item1_id c) && parses (item2_id c) && parses (score c).

(** All three fields of the row are stored as integers. *)
Definition int_row (c : comparison) : bool :=
  match item1_id c, item2_id c, score c with
  | VInt _, VInt _, VInt _ => true
  | _, _, _ => false
  end.

Definition int_of_value (v : value) : Z :=
  match v with
  | VInt z => z
  | _ => 0
  end.

Definition score_sum (l : list comparison) : Z :=
  fold_right Z.add 0 (map (fun c => int_of_value (score c)) l).

(** The rank in the words of the spec: the scores of the comparisons with
    [item1_id == x] minus the scores of those with [item2_id == x]. *)
Definition spec_rank (x : Z) (l : list comparison) : Z :=
  score_sum (filter (fun c => sql_eq_int (item1_id c) x) l)
  - score_sum (filter (fun c => sql_eq_int (item2_id c) x) l).

(** The same with the second sum restricted to the rows the [elif] reaches:
    those whose [item1_id] is not [x]. *)
Definition elif_rank (x : Z) (l : list comparison) : Z :=
  score_sum (filter (fun c => sql_eq_int (item1_id c) x) l)
  - score_sum (filter (fun c => negb (sql_eq_int (item1_id c) x)
                                && sql_eq_int (item2_id c) x) l).

(** What one row adds to the rank of [x]. *)
Definition contribution (x : Z) (c : comparison) : Z :=
  if sql_eq_int (item1_id c) x then int_of_value (score c)
  else if sql_eq_int (item2_id c) x then - int_of_value (score c)
  else 0.

Definition self_comparison (x : Z) (c : comparison) : bool :=
  sql_eq_int (item1_id c) x && sql_eq_int (item2_id c) x.

(** Two results agree when both are the same value or both are raised. *)
Definition agree (r r' : result Z) : Prop :=
  match r, r' with
  | Ok a, Ok b => a = b
  | Raise _, Raise _ => True
  | _, _ => False
  end.

(** A string of white space only (the empty string too). *)
Fixpoint all_space (s : string) : bool :=
  match s with
  | EmptyString => true
  | String c r => is_space c && all_space r
  end.

Definition first_char (s : string) : option ascii :=
  match s with
  | EmptyString => None
  | String c _ => Some c
  end.

Fixpoint last_char (s : string) : option ascii :=
  match s with
  | EmptyString => None
  | String c EmptyString => Some c
  | String _ r => last_char r
  end.

(** The string neither begins nor ends with white space. *)
Definition no_space_at_ends (s : string) : bool :=
  match first_char s, last_char s with
  | Some a, Some b => negb (is_space a) && negb (is_space b)
  | _, _ => true
  end.

(** The characters a numeric literal of SQLite can begin with. *)
Definition starts_number (c : ascii) : bool :=
  let n := code c in
  ((48 <=? n) && (n <=? 57)) || (n =? 43) || (n =? 45) || (n =? 46).

(** A text that begins no numeric literal, which a column of INTEGER
    affinity therefore keeps as it is. *)
Definition surely_text (s : string) : bool :=
  match ltrim sql_is_space s with
  | EmptyString => true
  | String c _ => negb (starts_number c)
  end.

(** The texts on which [integer_affinity] is what SQLite does: the integer
    literals that fit 64 bits, and the texts that begin no number.  The
    other texts (real literals, integers beyond 64 bits) are stored as
    numbers the embedding leaves out. *)
Definition affinity_exact (s : string) : bool :=
  match sql_integer_literal s with
  | Some _ => true
  | None => surely_text s
  end.

(** ** Scenarios *)

(** A log with a self-comparison of item 7 and a row that does not mention
    item 7 and does not hold integers. *)
Definition mixed_log : list comparison :=
  [ {| item1_id := VInt 7; item2_id := VInt 8; score := VInt 4 |};
    {| item1_id := VInt 7; item2_id := VInt 7; score := VInt 2 |};
    {| item1_id := VStr "n/a"; item2_id := VInt 9; score := VNone |};
    {| item1_id := VInt 9; item2_id := VInt 7; score := VInt 1 |} ].

Definition empty_db : database := {| items := Ok []; comparisons := Ok [] |}.

Definition no_entropy : nat -> Z := fun _ => 0.

Definition post_item (n : string) (d : database) : database :=
  db_after (serve (index POST [("item_name", n)]) no_entropy d).

Definition post_comparison (a b s : string) (d : database) : database :=
  db_after
    (serve (record_comparison
              [("item1_id", a); ("item2_id", b); ("preference", s)])
       no_entropy d).

Definition scenario_A : database :=
  post_comparison "1" "2" "5" (post_item "Y" (post_item "X" empty_db)).

Definition scenario_B : database :=
  post_comparison "1" "3" "-1"
    (post_comparison "2" "3" "2"
       (post_comparison "1" "2" "3"
          (post_item "Z" (post_item "Y" (post_item "X" empty_db))))).

(** ** [view_database] *)

(** The order of [ORDER BY] on text: byte by byte. *)
Fixpoint text_leb (s t : string) : bool :=
  match s, t with
  | EmptyString, _ => true
  | String _ _, EmptyString => false
  | String a s', String b t' =>
      (code a <? code b) || ((code a =? code b) && text_leb s' t')
  end.

(** The order of [ORDER BY] on values: NULL first, then the integers, then
    the texts. *)
Definition value_leb (a b : value) : bool :=
  match a, b with
  | VNone, _ => true
  | VInt _, VNone => false
  | VInt x, VInt y => x <=? y
  | VInt _, VStr _ => true
  | VStr _, VNone => false
  | VStr _, VInt _ => false
  | VStr s, VStr t => text_leb s t
  end.

(** [ORDER BY item1_id, item2_id] *)
Definition comparison_leb (c c' : comparison) : bool :=
  if value_leb (item1_id c) (item1_id c') then
    if value_leb (item1_id c') (item1_id c) then
      value_leb (item2_id c) (item2_id c')
    else true
  else false.

(** [SELECT id, name FROM items ORDER BY id] *)
Definition select_items_by_id : M (list item) :=
  fun w =>
    match items (current (conn w)) with
    | Ok l => (Ok (sort_by (fun a b => item_id a <=? item_id b) l), w)
    | Raise e => (Raise e, w)
    end.

(** [SELECT item1_id, item2_id, score FROM comparisons
     ORDER BY item1_id, item2_id] *)
Definition select_comparisons_ordered : M (list comparison) :=
  fun w =>
    match comparisons (current (conn w)) with
    | Ok l => (Ok (sort_by comparison_leb l), w)
    | Raise e => (Raise e, w)
    end.

(** [conn.close()]: what the connection did not commit is dropped. *)
Definition close : M unit :=
  fun w =>
    (Ok tt,
     set_conn {| current := committed (conn w);
                 committed := committed (conn w) |} w).

(** [render_template('database_view.html', items=..., comparisons=...)] *)
Record database_view :=
  { view_template : string;
    view_items : list item;
    view_comparisons : list comparison }.

Definition view_database : M database_view :=
  all_items <- select_items_by_id;;
  all_comparisons <- select_comparisons_ordered;;
  close;;
  ret {| view_template := "database_view.html";
         view_items := all_items;
         view_comparisons := all_comparisons |}.

(** ** Sequences of requests *)

(** The routes of [app.py]. *)
Inductive request :=
| GetIndex
| PostIndex (form : multidict)
| GetCompare
| PostRecordComparison (form : multidict)
| GetDatabase.

(** The stored database once the handler has run on a fresh connection and
    the connection is closed. *)
Definition stored_after {A} (h : M A) (rnd : nat -> Z) (d : database)
  : database :=
  committed (conn (snd (h (open_connection rnd d)))).

Definition handle (r : request) (rnd : nat -> Z) (d : database) : database :=
  match r with
  | GetIndex => stored_after (index GET []) rnd d
  | PostIndex form => stored_after (index POST form) rnd d
  | GetCompare => stored_after compare_items rnd d
  | PostRecordComparison form => stored_after (record_comparison form) rnd d
  | GetDatabase => stored_after view_database rnd d
  end.

Fixpoint replay (trace : list (request * (nat -> Z))) (d : database)
  : database :=
  match trace with
  | [] => d
  | (r, rnd) :: rest => replay rest (handle r rnd d)
  end.

(** ** What the handlers store *)

(** A name [index] stores: not empty, nothing left to trim. *)
Definition name_stored (n : string) : bool :=
  str_bool n && String.eqb (strip n) n.

(** An id column as [record_comparison] fills it: never NULL. *)
Definition id_stored (v : value) : bool :=
  match v with
  | VNone => false
  | _ => true
  end.

Definition score_stored (v : value) : bool :=
  match v with
  | VInt z => in_int64 z
  | _ => false
  end.

Definition row_stored (c : comparison) : bool :=
  id_stored (item1_id c) && id_stored (item2_id c) && score_stored (score c).

Definition item_stored (i : item) : bool :=
  (0 <? item_id i) && name_stored (item_name i).

Definition store_ok (d : database) : Prop :=
  (forall l, items d = Ok l ->
             NoDup (map item_id l) /\ forallb item_stored l = true)
  /\ (forall cs, comparisons d = Ok cs -> forallb row_stored cs = true).

(** One relation extends another: the rows that were there are still
    there, in front and in order; a relation that raises still raises. *)
Definition extends {A} (t t' : table A) : Prop :=
  match t with
  | Ok l => exists more, t' = Ok (l ++ more)
  | Raise e => t' = Raise e
  end.

(** A comparison between two different items of the store, all integers. *)
Definition proper_row (ids : list Z) (c : comparison) : bool :=
  match item1_id c, item2_id c, score c with
  | VInt a, VInt b, VInt _ =>
      negb (a =? b) && existsb (Z.eqb a) ids && existsb (Z.eqb b) ids
  | _, _, _ => false
  end.

Definition rank_total (l : list ranked_item) : Z :=
  fold_right Z.add 0 (map rank l).

(** * Properties *)

(** ** The embedding on examples *)

Example int_of_str_plain : int_of_str "42" = Ok 42.
Proof. reflexivity. Qed.

Example int_of_str_signed_spaces : int_of_str "  -1_000 " = Ok (-1000).
Proof. reflexivity. Qed.

Example int_of_str_word : int_of_str "abc" = Raise (invalid_literal "abc").
Proof. reflexivity. Qed.

Example int_of_str_float : int_of_str "1.5" = Raise (invalid_literal "1.5").
Proof. reflexivity. Qed.

Example int_of_str_empty :
  int_of_str EmptyString = Raise (invalid_literal EmptyString).
Proof. reflexivity. Qed.

Example int_of_str_double_underscore :
  int_of_str "1__0" = Raise (invalid_literal "1__0").
Proof. reflexivity. Qed.

Example strip_example : strip "  a b  " = "a b".
Proof. reflexivity. Qed.

(** U+001C is white space for [str.strip] and not for [int]; U+00A0 is white
    space for both. *)
Example strip_file_separator : strip (String (chr 28) "5") = "5".
Proof. reflexivity. Qed.

Example int_of_str_file_separator :
  int_of_str (String (chr 28) "5")
  = Raise (Exn ValueError "invalid literal for int() with base 10: '\x1c5'").
Proof. reflexivity. Qed.

Example int_of_str_no_break_space : int_of_str (String (chr 160) "5 ") = Ok 5.
Proof. reflexivity. Qed.

Example py_repr_apostrophe : py_repr "it's" = String (chr 34) ("it's" +++ String (chr 34) EmptyString).
Proof. reflexivity. Qed.

Example surely_text_examples :
  surely_text "tea" = true /\ surely_text " 1.5" = false
  /\ affinity_exact " 12 " = true /\ affinity_exact "1.0" = false
  /\ affinity_exact "1e2" = false
  /\ affinity_exact "99999999999999999999" = false.
Proof. repeat split. Qed.

Example str_contains_yes :
  str_contains "no such table: items" "error: no such table: items" = true.
Proof. reflexivity. Qed.

Example str_contains_no :
  str_contains "no such table: items" "no such table: comparisons" = false.
Proof. reflexivity. Qed.


Example scenario_A_database :
  scenario_A =
  {| items := Ok [ {| item_id := 1; item_name := "X" |};
                   {| item_id := 2; item_name := "Y" |} ];
     comparisons :=
       Ok [ {| item1_id := VInt 1; item2_id := VInt 2; score := VInt 5 |} ] |}.
Proof. reflexivity. Qed.

(** ** The loop of [calculate_relative_rank] *)

Lemma rank_step_shift x t c :
  rank_step x t c = let? d := rank_step x 0 c in Ok (t + d).
Proof.
  unfold rank_step.
  destruct (py_int (item1_id c)) as [a|e]; simpl; [|reflexivity].
  destruct (py_int (item2_id c)) as [b|e]; simpl; [|reflexivity].
  destruct (a =? x).
  - destruct (py_int (score c)); simpl; [f_equal; lia | reflexivity].
  - destruct (b =? x).
    + destruct (py_int (score c)); simpl; [f_equal; lia | reflexivity].
    + simpl. f_equal. lia.
Qed.

Lemma rank_loop_shift x l :
  forall t, rank_loop x t l = let? d := rank_loop x 0 l in Ok (t + d).
Proof.
  induction l as [|c l IH]; intro t; simpl.
  - f_equal. lia.
  - rewrite (rank_step_shift x t c).
    destruct (rank_step x 0 c) as [d|e]; simpl; [|reflexivity].
    rewrite (IH (t + d)), (IH d).
    destruct (rank_loop x 0 l); simpl; [f_equal; lia | reflexivity].
Qed.

Lemma rank_loop_app x l1 l2 :
  forall t,
    rank_loop x t (l1 ++ l2) =
    let? t' := rank_loop x t l1 in rank_loop x t' l2.
Proof.
  induction l1 as [|c l1 IH]; intro t; simpl; [reflexivity|].
  destruct (rank_step x t c); simpl; [apply IH | reflexivity].
Qed.

Lemma agree_refl r : agree r r.
Proof. destruct r; simpl; auto. Qed.

Lemma agree_trans r1 r2 r3 : agree r1 r2 -> agree r2 r3 -> agree r1 r3.
Proof.
  destruct r1, r2, r3; simpl; intros; try contradiction; auto; congruence.
Qed.

Lemma agree_or_zero r r' : agree r r' -> or_zero r = or_zero r'.
Proof. destruct r, r'; simpl; intros; try contradiction; auto. Qed.

(** The loop gives the same total, or fails all the same, on any
    rearrangement of the rows. *)
Lemma rank_loop_perm x l l' :
  Permutation l l' -> forall t, agree (rank_loop x t l) (rank_loop x t l').
Proof.
  induction 1 as [|c l l' _ IH|c c' l|l l' l'' _ IH1 _ IH2]; intro t.
  - apply agree_refl.
  - simpl. destruct (rank_step x t c); simpl; [apply IH | exact I].
  - simpl.
    rewrite (rank_step_shift x t c), (rank_step_shift x t c').
    destruct (rank_step x 0 c) as [d|e] eqn:Hc,
             (rank_step x 0 c') as [d'|e'] eqn:Hc'; simpl.
    + rewrite (rank_step_shift x (t + d') c), (rank_step_shift x (t + d) c').
      rewrite Hc, Hc'. simpl.
      replace (t + d' + d) with (t + d + d') by lia. apply agree_refl.
    + rewrite (rank_step_shift x (t + d) c'), Hc'. exact I.
    + rewrite (rank_step_shift x (t + d') c), Hc. exact I.
    + exact I.
  - eapply agree_trans; [apply IH1 | apply IH2].
Qed.

(** ** [calculate_relative_rank] *)

Lemma add_logs_nil w : add_logs [] w = w.
Proof. destruct w; unfold add_logs; simpl. now rewrite app_nil_r. Qed.

Lemma add_logs_add_logs lg lg' w :
  add_logs lg' (add_logs lg w) = add_logs (lg ++ lg') w.
Proof. unfold add_logs; simpl. now rewrite app_assoc. Qed.

Ltac run_handler :=
  unfold try_except, bind, lift, ret, raise, logger, commit, rollback; simpl.

(** The handlers of the [try] turn every exception into 0 and only write to
    the log. *)
Lemma calculate_relative_rank_run v w :
  exists lg,
    calculate_relative_rank v w =
    (Ok (or_zero (rank_body v (comparisons (current (conn w))))),
     add_logs lg w).
Proof.
  unfold calculate_relative_rank, select_comparisons_for, rank_body,
    bind_param.
  run_handler.
  destruct (py_int v) as [x|e]; simpl.
  - destruct (comparisons (current (conn w))) as [l|e]; simpl.
    + destruct (in_int64 x); simpl.
      * destruct (rank_loop x 0 (filter (mentions x) l)) as [r|e]; simpl.
        -- exists []. now rewrite add_logs_nil.
        -- destruct (exn_cls e); eexists; reflexivity.
      * eexists; reflexivity.
    + destruct (exn_cls e); eexists; reflexivity.
  - destruct (exn_cls e); eexists; reflexivity.
Qed.

Lemma calculate_relative_rank_value v w :
  fst (calculate_relative_rank v w) =
  Ok (or_zero (rank_body v (comparisons (current (conn w))))).
Proof.
  destruct (calculate_relative_rank_run v w) as [lg H]. now rewrite H.
Qed.

Lemma rank_of_body w x :
  rank_of w x = or_zero (rank_body (VInt x) (comparisons (current (conn w)))).
Proof. unfold rank_of. now rewrite calculate_relative_rank_value. Qed.

Lemma rank_of_add_logs lg w x : rank_of (add_logs lg w) x = rank_of w x.
Proof. now rewrite !rank_of_body. Qed.

Lemma rank_items_run l :
  forall acc w,
    exists lg,
      rank_items l acc w = (Ok (acc ++ map (entry w) l), add_logs lg w).
Proof.
  induction l as [|i l IH]; intros acc w; simpl.
  - exists []. unfold ret. now rewrite app_nil_r, add_logs_nil.
  - unfold bind at 1.
    destruct (calculate_relative_rank_run (VInt (item_id i)) w) as [lg H].
    rewrite H.
    destruct (IH (acc ++ [ {| id := item_id i; name := item_name i;
                              rank := or_zero (rank_body (VInt (item_id i))
                                (comparisons (current (conn w)))) |} ])
                 (add_logs lg w)) as [lg' H'].
    rewrite H'. exists (lg ++ lg').
    rewrite (map_ext (entry (add_logs lg w)) (entry w))
      by (intro j; unfold entry; now rewrite rank_of_add_logs).
    rewrite add_logs_add_logs, <- app_assoc. simpl.
    unfold entry at 2. now rewrite rank_of_body.
Qed.

Lemma select_comparisons_for_ok x w rows :
  fst (select_comparisons_for x w) = Ok rows ->
  exists l,
    comparisons (current (conn w)) = Ok l
    /\ bind_param (VInt x) = Ok (VInt x)
    /\ rows = filter (mentions x) l.
Proof.
  unfold select_comparisons_for, bind_param.
  destruct (comparisons (current (conn w))) as [l|e]; simpl; [|discriminate].
  destruct (in_int64 x); simpl; [|discriminate].
  intro H. injection H as <-. now exists l.
Qed.

Lemma select_comparisons_for_raise x w e :
  fst (select_comparisons_for x w) = Raise e ->
  forall v, py_int v = Ok x ->
    exists e', rank_body v (comparisons (current (conn w))) = Raise e'.
Proof.
  unfold select_comparisons_for, rank_body, bind_param.
  intros H v ->. simpl.
  destruct (comparisons (current (conn w))) as [l|e0]; simpl in *.
  - destruct (in_int64 x); simpl in *; [discriminate|].
    eexists; reflexivity.
  - eexists; reflexivity.
Qed.

Lemma rank_body_ok v x w l :
  py_int v = Ok x ->
  in_int64 x = true ->
  comparisons (current (conn w)) = Ok l ->
  rank_body v (comparisons (current (conn w))) =
  rank_loop x 0 (filter (mentions x) l).
Proof.
  intros Hv Hx Hl. unfold rank_body, bind_param.
  rewrite Hv, Hl. simpl. now rewrite Hx.
Qed.

(** A row the query fetches decides one of the two tests of the loop. *)
Lemma fetched_row_raises x c :
  mentions x c = true ->
  row_parses c = false ->
  exists e, forall t, rank_step x t c = Raise e.
Proof.
  unfold mentions, row_parses, parses, rank_step.
  intros Hm Hp.
  destruct (py_int (item1_id c)) as [a|e1] eqn:H1; simpl;
    [|eexists; reflexivity].
  destruct (py_int (item2_id c)) as [b|e2] eqn:H2; simpl;
    [|eexists; reflexivity].
  destruct (py_int (score c)) as [s|e3]; simpl in *; [discriminate|].
  assert (Hab : (a =? x) = true \/ (b =? x) = true).
  { apply orb_true_iff in Hm. destruct Hm as [Hm|Hm]; [left|right].
    - destruct (item1_id c); simpl in *; try discriminate.
      injection H1 as <-. exact Hm.
    - destruct (item2_id c); simpl in *; try discriminate.
      injection H2 as <-. exact Hm. }
  destruct (a =? x); [eexists; reflexivity|].
  destruct (b =? x); [eexists; reflexivity|].
  destruct Hab; discriminate.
Qed.

Lemma rank_loop_raises x c l :
  In c l ->
  (exists e, forall t, rank_step x t c = Raise e) ->
  forall t, exists e, rank_loop x t l = Raise e.
Proof.
  intros Hin [e He].
  induction l as [|c' l IH]; intro t; [contradiction|].
  simpl. destruct Hin as [->|Hin].
  - rewrite He. simpl. now exists e.
  - destruct (rank_step x t c'); simpl; [now apply IH | eexists; reflexivity].
Qed.

(** ** The rank as a sum *)

Lemma elif_rank_cons x c l :
  elif_rank x (c :: l) = contribution x c + elif_rank x l.
Proof.
  unfold elif_rank, contribution, score_sum. simpl.
  destruct (sql_eq_int (item1_id c) x), (sql_eq_int (item2_id c) x);
    simpl; lia.
Qed.

Lemma spec_rank_cons x c l :
  self_comparison x c = false ->
  spec_rank x (c :: l) = contribution x c + spec_rank x l.
Proof.
  unfold spec_rank, contribution, score_sum, self_comparison. simpl.
  destruct (sql_eq_int (item1_id c) x), (sql_eq_int (item2_id c) x);
    simpl; intro; try discriminate; lia.
Qed.

Lemma elif_rank_spec_rank x l :
  forallb (fun c => negb (self_comparison x c)) l = true ->
  elif_rank x l = spec_rank x l.
Proof.
  induction l as [|c l IH]; simpl; [reflexivity|].
  intro H. apply andb_true_iff in H. destruct H as [Hc Hl].
  apply negb_true_iff in Hc.
  rewrite elif_rank_cons, spec_rank_cons, IH; auto.
Qed.

Lemma rank_step_int_row x c :
  int_row c = true ->
  mentions x c = true ->
  rank_step x 0 c = Ok (contribution x c).
Proof.
  unfold int_row, mentions, rank_step, contribution.
  destruct (item1_id c) as [|a|?]; try discriminate.
  destruct (item2_id c) as [|b|?]; try discriminate.
  destruct (score c) as [|s|?]; try discriminate.
  simpl. intros _ Hm.
  destruct (a =? x); simpl; [reflexivity|].
  destruct (b =? x); simpl; [reflexivity | discriminate].
Qed.

Lemma contribution_not_mentioned x c :
  mentions x c = false -> contribution x c = 0.
Proof.
  unfold mentions, contribution. intro H.
  apply orb_false_iff in H. destruct H as [-> ->]. reflexivity.
Qed.

Lemma rank_loop_int_rows x l :
  forallb int_row (filter (mentions x) l) = true ->
  rank_loop x 0 (filter (mentions x) l) = Ok (elif_rank x l).
Proof.
  induction l as [|c l IH]; simpl; [reflexivity|].
  rewrite elif_rank_cons.
  destruct (mentions x c) eqn:Hm; simpl.
  - intro H. apply andb_true_iff in H. destruct H as [Hc Hl].
    rewrite (rank_step_int_row x c Hc Hm). simpl.
    rewrite rank_loop_shift, (IH Hl). reflexivity.
  - intro H. rewrite (contribution_not_mentioned x c Hm). now apply IH.
Qed.

(** ** The listing *)

Lemma index_get_run form w l :
  items (current (conn w)) = Ok l ->
  exists lg,
    index GET form w =
    (Ok (Render "index.html" (IndexCtx (sort_ranked (map (entry w) l)))),
     add_logs lg w).
Proof.
  intro Hl. unfold index, select_items.
  unfold try_except, bind at 1 2 3. rewrite Hl.
  destruct (rank_items_run l [] w) as [lg H]. rewrite H. simpl.
  exists lg. reflexivity.
Qed.

(** ** Claims on the rank *)

(** C1 (amended). For an item id [x] in the 64-bit range and a readable
    comparison log whose rows mentioning [x] hold integers,
    [calculate_relative_rank] returns the sum of the scores of the rows
    with [item1_id == x] minus the sum of the scores of the rows with
    [item2_id == x] and [item1_id != x]; without a self-comparison of [x]
    this is the signed sum of the spec.  After creating items X and Y and
    recording the comparison (X, Y, 5), X and Y have ids 1 and 2 and ranks
    5 and -5. *)
Theorem rank_is_elif_signed_sum :
  (forall x l w,
      in_int64 x = true ->
      comparisons (current (conn w)) = Ok l ->
      forallb int_row (filter (mentions x) l) = true ->
      returns (calculate_relative_rank (VInt x)) w (elif_rank x l)
      /\ (forallb (fun c => negb (self_comparison x c)) l = true ->
          returns (calculate_relative_rank (VInt x)) w (spec_rank x l)))
  /\ items scenario_A = Ok [ {| item_id := 1; item_name := "X" |};
                             {| item_id := 2; item_name := "Y" |} ]
  /\ (forall rnd,
         returns (calculate_relative_rank (VInt 1))
           (open_connection rnd scenario_A) 5
         /\ returns (calculate_relative_rank (VInt 2))
              (open_connection rnd scenario_A) (-5)).
Proof.
  split; [|split; [reflexivity | intro rnd; split; reflexivity]].
  intros x l w Hx Hl Hrows.
  assert (H : returns (calculate_relative_rank (VInt x)) w (elif_rank x l)).
  { unfold returns. rewrite calculate_relative_rank_value.
    rewrite (rank_body_ok (VInt x) x w l eq_refl Hx Hl).
    now rewrite (rank_loop_int_rows x l Hrows). }
  split; [exact H|].
  intro Hself. now rewrite <- (elif_rank_spec_rank x l Hself).
Qed.

Lemma rank_is_elif_signed_sum_witness :
  returns (calculate_relative_rank (VInt 7))
    (open_connection no_entropy
       {| items := Ok []; comparisons := Ok mixed_log |})
    (elif_rank 7 mixed_log)
  /\ elif_rank 7 mixed_log = 5.
Proof.
  split; [|reflexivity].
  apply (proj1 rank_is_elif_signed_sum 7 mixed_log
           (open_connection no_entropy
              {| items := Ok []; comparisons := Ok mixed_log |}));
    reflexivity.
Defined.

(** C1, as the spec words it, fails on a self-comparison: once item X is
    created and the comparison (X, X, 5) is recorded, the code returns 5
    where the two sums of the spec cancel. *)
Lemma rank_self_comparison_not_spec_sum :
  let d := post_comparison "1" "1" "5" (post_item "X" empty_db) in
  let log := [ {| item1_id := VInt 1; item2_id := VInt 1; score := VInt 5 |} ] in
  d = {| items := Ok [ {| item_id := 1; item_name := "X" |} ];
         comparisons := Ok log |}
  /\ returns (calculate_relative_rank (VInt 1)) (open_connection no_entropy d) 5
  /\ spec_rank 1 log = 0
  /\ ~ returns (calculate_relative_rank (VInt 1))
         (open_connection no_entropy d) (spec_rank 1 log).
Proof.
  cbv zeta. split; [reflexivity|]. split; [reflexivity|].
  split; [reflexivity|].
  unfold returns. intro H. vm_compute in H. discriminate.
Qed.

(** C3. In the loop a comparison whose [item1_id] and [item2_id] both equal
    the queried id takes the first branch only: its score is added to the
    accumulator once and not subtracted.  So a log with one more
    self-comparison of [x] of score [s] gives the rank of the log without
    it plus [s]. *)
Theorem self_comparison_added_once :
  (forall x t c s,
      py_int (item1_id c) = Ok x ->
      py_int (item2_id c) = Ok x ->
      py_int (score c) = Ok s ->
      rank_step x t c = Ok (t + s))
  /\ (forall x s before after r w,
         in_int64 x = true ->
         comparisons (current (conn w)) =
           Ok (before
               ++ {| item1_id := VInt x; item2_id := VInt x;
                     score := VInt s |} :: after) ->
         rank_loop x 0 (filter (mentions x) (before ++ after)) = Ok r ->
         returns (calculate_relative_rank (VInt x)) w (r + s)).
Proof.
  split.
  - intros x t c s H1 H2 H3. unfold rank_step.
    rewrite H1, H2, H3. simpl. now rewrite Z.eqb_refl.
  - intros x s l1 l2 r w Hx Hl Hr.
    unfold returns. rewrite calculate_relative_rank_value.
    rewrite (rank_body_ok (VInt x) x w _ eq_refl Hx Hl).
    rewrite filter_app in *. simpl.
    unfold mentions at 2. simpl. rewrite Z.eqb_refl. simpl.
    rewrite rank_loop_app in *.
    destruct (rank_loop x 0 (filter (mentions x) l1)) as [t|e]; simpl in *;
      [|discriminate].
    unfold rank_step. simpl. rewrite Z.eqb_refl. simpl.
    rewrite rank_loop_shift in Hr. rewrite rank_loop_shift.
    destruct (rank_loop x 0 (filter (mentions x) l2)) as [d|e]; simpl in *;
      [|discriminate].
    injection Hr as <-. f_equal. lia.
Qed.

Lemma self_comparison_added_once_witness :
  rank_step 1 10
    {| item1_id := VInt 1; item2_id := VStr " 1 "; score := VStr "5" |}
  = Ok (10 + 5)
  /\ returns (calculate_relative_rank (VInt 1))
       (open_connection no_entropy
          {| items := Ok [];
             comparisons :=
               Ok ([ {| item1_id := VInt 1; item2_id := VInt 2;
                        score := VInt 3 |} ]
                   ++ {| item1_id := VInt 1; item2_id := VInt 1;
                         score := VInt 5 |}
                      :: [ {| item1_id := VInt 2; item2_id := VInt 1;
                              score := VInt 1 |} ]) |})
       (2 + 5).
Proof.
  split.
  - apply (proj1 self_comparison_added_once 1 10
             {| item1_id := VInt 1; item2_id := VStr " 1 ";
                score := VStr "5" |} 5); reflexivity.
  - apply (proj2 self_comparison_added_once 1 5
             [ {| item1_id := VInt 1; item2_id := VInt 2; score := VInt 3 |} ]
             [ {| item1_id := VInt 2; item2_id := VInt 1; score := VInt 1 |} ]
             2 (open_connection no_entropy
                  {| items := Ok [];
                     comparisons :=
                       Ok ([ {| item1_id := VInt 1; item2_id := VInt 2;
                                score := VInt 3 |} ]
                           ++ {| item1_id := VInt 1; item2_id := VInt 1;
                                 score := VInt 5 |}
                              :: [ {| item1_id := VInt 2; item2_id := VInt 1;
                                      score := VInt 1 |} ]) |}));
      reflexivity.
Defined.

(** C4. [calculate_relative_rank] never raises: in every world and for every
    argument it returns a number.  Whenever the query on the comparison log
    raises, whatever the exception, it returns 0.  So whenever the rows of
    [items] can be read the listing page is rendered. *)
Theorem rank_degrades_to_zero :
  (forall v w, exists z, returns (calculate_relative_rank v) w z)
  /\ (forall v x w e,
         py_int v = Ok x ->
         fst (select_comparisons_for x w) = Raise e ->
         returns (calculate_relative_rank v) w 0)
  /\ (forall form w l,
         items (current (conn w)) = Ok l ->
         exists ranked,
           returns (index GET form) w
             (Render "index.html" (IndexCtx ranked))).
Proof.
  split; [|split].
  - intros v w. eexists. unfold returns.
    apply calculate_relative_rank_value.
  - intros v x w e Hv He. unfold returns.
    rewrite calculate_relative_rank_value.
    destruct (select_comparisons_for_raise x w e He v Hv) as [e' ->].
    reflexivity.
  - intros form w l Hl.
    destruct (index_get_run form w l Hl) as [lg H].
    eexists. unfold returns. rewrite H. reflexivity.
Qed.

Lemma rank_degrades_to_zero_witness :
  let d := {| items := Ok [ {| item_id := 1; item_name := "X" |} ];
              comparisons :=
                Raise (Exn OperationalError "no such table: comparisons") |} in
  returns (calculate_relative_rank (VInt 1)) (open_connection no_entropy d) 0
  /\ exists ranked,
       returns (index GET []) (open_connection no_entropy d)
         (Render "index.html" (IndexCtx ranked)).
Proof.
  split.
  - apply (proj1 (proj2 rank_degrades_to_zero) (VInt 1) 1
             (open_connection no_entropy
                {| items := Ok [ {| item_id := 1; item_name := "X" |} ];
                   comparisons :=
                     Raise (Exn OperationalError
                              "no such table: comparisons") |})
             (Exn OperationalError "no such table: comparisons"));
      reflexivity.
  - apply (proj2 (proj2 rank_degrades_to_zero) []
             (open_connection no_entropy
                {| items := Ok [ {| item_id := 1; item_name := "X" |} ];
                   comparisons :=
                     Raise (Exn OperationalError
                              "no such table: comparisons") |})
             [ {| item_id := 1; item_name := "X" |} ]).
    reflexivity.
Defined.

(** C6. The rank of an item depends only on the multiset of the comparisons
    that mention it: two logs whose rows mentioning [x] are rearrangements
    of each other give [x] the same rank, and rearranging the whole log
    changes the rank of no item. *)
Theorem rank_order_independent :
  (forall x l l' w w',
      comparisons (current (conn w)) = Ok l ->
      comparisons (current (conn w')) = Ok l' ->
      Permutation (filter (mentions x) l) (filter (mentions x) l') ->
      fst (calculate_relative_rank (VInt x) w)
      = fst (calculate_relative_rank (VInt x) w'))
  /\ (forall v l l' w w',
         comparisons (current (conn w)) = Ok l ->
         comparisons (current (conn w')) = Ok l' ->
         Permutation l l' ->
         fst (calculate_relative_rank v w)
         = fst (calculate_relative_rank v w')).
Proof.
  assert (A : forall v x l l' w w',
             py_int v = Ok x ->
             comparisons (current (conn w)) = Ok l ->
             comparisons (current (conn w')) = Ok l' ->
             Permutation (filter (mentions x) l) (filter (mentions x) l') ->
             fst (calculate_relative_rank v w)
             = fst (calculate_relative_rank v w')).
  { intros v x l l' w w' Hv Hl Hl' HP.
    rewrite !calculate_relative_rank_value. f_equal.
    unfold rank_body. rewrite Hv, Hl, Hl'. simpl.
    destruct (bind_param (VInt x)); simpl; [|reflexivity].
    apply agree_or_zero. now apply rank_loop_perm. }
  split.
  - intros x l l' w w'. now apply A.
  - intros v l l' w w' Hl Hl' HP.
    destruct (py_int v) as [x|e] eqn:Hv.
    + apply (A v x l l' w w' Hv Hl Hl').
      clear - HP. induction HP; simpl.
      * constructor.
      * destruct (mentions x x0); [now constructor | assumption].
      * destruct (mentions x x0), (mentions x y);
          try apply Permutation_refl. apply perm_swap.
      * eapply Permutation_trans; eassumption.
    + rewrite !calculate_relative_rank_value. f_equal.
      unfold rank_body. now rewrite Hv.
Qed.

Lemma rank_order_independent_witness :
  fst (calculate_relative_rank (VInt 7)
         (open_connection no_entropy
            {| items := Ok []; comparisons := Ok mixed_log |}))
  = fst (calculate_relative_rank (VInt 7)
           (open_connection no_entropy
              {| items := Ok []; comparisons := Ok (rev mixed_log) |}))
  /\ fst (calculate_relative_rank (VInt 8)
            (open_connection no_entropy
               {| items := Ok []; comparisons := Ok mixed_log |}))
     = fst (calculate_relative_rank (VInt 8)
              (open_connection no_entropy
                 {| items := Ok []; comparisons := Ok (firstn 1 mixed_log) |})).
Proof.
  split.
  - apply (proj2 rank_order_independent (VInt 7) mixed_log (rev mixed_log)
             (open_connection no_entropy
                {| items := Ok []; comparisons := Ok mixed_log |})
             (open_connection no_entropy
                {| items := Ok []; comparisons := Ok (rev mixed_log) |}));
      [reflexivity | reflexivity | apply Permutation_rev].
  - apply (proj1 rank_order_independent 8 mixed_log (firstn 1 mixed_log)
             (open_connection no_entropy
                {| items := Ok []; comparisons := Ok mixed_log |})
             (open_connection no_entropy
                {| items := Ok []; comparisons := Ok (firstn 1 mixed_log) |}));
      [reflexivity | reflexivity | apply Permutation_refl].
Defined.

(** C10. If a row the query fetches for the item has an [item1_id], an
    [item2_id] or a [score] that [int] does not convert,
    [calculate_relative_rank] returns 0, whatever the other rows hold and
    wherever the row stands. *)
Theorem rank_zero_on_malformed_row :
  forall v x w rows c,
    py_int v = Ok x ->
    fst (select_comparisons_for x w) = Ok rows ->
    In c rows ->
    row_parses c = false ->
    returns (calculate_relative_rank v) w 0.
Proof.
  intros v x w rows c Hv Hrows Hin Hbad.
  destruct (select_comparisons_for_ok x w rows Hrows) as (l & Hl & Hb & ->).
  unfold returns. rewrite calculate_relative_rank_value.
  unfold rank_body. rewrite Hv, Hl. simpl. rewrite Hb. simpl.
  assert (Hm : mentions x c = true).
  { apply filter_In in Hin. tauto. }
  destruct (rank_loop_raises x c _ Hin
              (fetched_row_raises x c Hm Hbad) 0) as [e ->].
  reflexivity.
Qed.

Lemma rank_zero_on_malformed_row_witness :
  returns (calculate_relative_rank (VInt 9))
    (open_connection no_entropy
       {| items := Ok []; comparisons := Ok mixed_log |})
    0.
Proof.
  apply (rank_zero_on_malformed_row (VInt 9) 9
           (open_connection no_entropy
              {| items := Ok []; comparisons := Ok mixed_log |})
           [ {| item1_id := VStr "n/a"; item2_id := VInt 9; score := VNone |};
             {| item1_id := VInt 9; item2_id := VInt 7; score := VInt 1 |} ]
           {| item1_id := VStr "n/a"; item2_id := VInt 9; score := VNone |});
    [reflexivity | reflexivity | left; reflexivity | reflexivity].
Defined.

(** ** Claims on [record_comparison] *)

Lemma int_of_str_raises s e : int_of_str s = Raise e -> exn_cls e = ValueError.
Proof.
  unfold int_of_str.
  destruct (signed_literal (int_trim s));
    [destruct (int_max_str_digits <? count_digits (int_trim s))|];
    intro H; try discriminate; injection H as <-; reflexivity.
Qed.

Ltac run_record_comparison :=
  unfold serve, record_comparison, insert_comparison, form_getitem,
    open_connection;
  run_handler.

(** C5. When [item1_id], [item2_id] or [preference] is missing from the
    form, or [preference] is not the text of an integer,
    [record_comparison] takes its clause for invalid form data (a
    [KeyError] or a [ValueError], logged as a warning) and the stored
    database is what it was: no row is appended. *)
Theorem invalid_comparison_not_recorded :
  forall form rnd d,
    form_get form "item1_id" = None
    \/ form_get form "item2_id" = None
    \/ form_get form "preference" = None
    \/ (exists p, form_get form "preference" = Some p
                  /\ parses (VStr p) = false) ->
    let o := serve (record_comparison form) rnd d in
    db_after o = d
    /\ exists e,
         (exn_cls e = KeyError \/ exn_cls e = ValueError)
         /\ logged o =
            [ {| lvl := WARNING;
                 text := "Invalid form data for comparison: " +++ exn_str e |} ].
Proof.
  intros form rnd d H. unfold parses in H. simpl in H.
  run_record_comparison.
  destruct (form_get form "item1_id") as [a|]; simpl.
  2:{ split; [reflexivity|]. eexists (Exn KeyError _). split; [now left|].
      reflexivity. }
  destruct (form_get form "item2_id") as [b|]; simpl.
  2:{ split; [reflexivity|]. eexists (Exn KeyError _). split; [now left|].
      reflexivity. }
  destruct (form_get form "preference") as [p|]; simpl.
  2:{ split; [reflexivity|]. eexists (Exn KeyError _). split; [now left|].
      reflexivity. }
  destruct (int_of_str p) as [z|e] eqn:Hp; simpl.
  - exfalso.
    destruct H as [H|[H|[H|(p' & H & Hbad)]]]; try discriminate.
    injection H as <-. rewrite Hp in Hbad. discriminate.
  - rewrite (int_of_str_raises p e Hp). simpl.
    split; [reflexivity|]. exists e.
    split; [right; exact (int_of_str_raises p e Hp) | reflexivity].
Qed.

Lemma invalid_comparison_not_recorded_witness :
  let o := serve (record_comparison
                    [("item1_id", "1"); ("item2_id", "2");
                     ("preference", "much")])
             no_entropy scenario_A in
  db_after o = scenario_A
  /\ exists e,
       (exn_cls e = KeyError \/ exn_cls e = ValueError)
       /\ logged o =
          [ {| lvl := WARNING;
               text := "Invalid form data for comparison: " +++ exn_str e |} ].
Proof.
  apply (invalid_comparison_not_recorded
           [("item1_id", "1"); ("item2_id", "2"); ("preference", "much")]
           no_entropy scenario_A).
  right. right. right. exists "much". split; reflexivity.
Defined.

(** C2, as the spec words it, fails: a form without [item1_id], and a form
    whose preference is not an integer, are both answered with the redirect
    to [/]. *)
Lemma invalid_comparison_still_redirects :
  form_get [("item2_id", "2"); ("preference", "5")] "item1_id" = None
  /\ resp (serve (record_comparison [("item2_id", "2"); ("preference", "5")])
             no_entropy scenario_A)
     = Redirect "/"
  /\ parses (VStr "much") = false
  /\ resp (serve (record_comparison
                    [("item1_id", "1"); ("item2_id", "2");
                     ("preference", "much")])
             no_entropy scenario_A)
     = Redirect "/".
Proof. repeat split; reflexivity. Qed.

(** C2 (amended). For every POST to [/record_comparison] whose form data is
    invalid (a field is missing, or the preference is not the text of an
    integer) the handler logs one warning, appends no row and falls through
    to the redirect to [/], the response of the happy path.  A response
    other than that redirect is an HTTP 500 and is produced only for
    well-formed form data, when the statement raises: the relation cannot
    be used, or the score does not fit 64 bits.  On the happy path one row
    is appended, with the score, and the redirect is produced; an id given
    as an integer literal, or as a text that begins no number, is stored as
    the column affinity makes it. *)
Theorem record_comparison_redirects :
  (forall form rnd d,
      form_get form "item1_id" = None
      \/ form_get form "item2_id" = None
      \/ form_get form "preference" = None
      \/ (exists p, form_get form "preference" = Some p
                    /\ parses (VStr p) = false) ->
      resp (serve (record_comparison form) rnd d) = redirect (url_for "index")
      /\ db_after (serve (record_comparison form) rnd d) = d
      /\ exists e,
           logged (serve (record_comparison form) rnd d)
           = [ {| lvl := WARNING;
                  text := "Invalid form data for comparison: "
                          +++ exn_str e |} ])
  /\ (forall form rnd d,
         resp (serve (record_comparison form) rnd d) = Redirect "/"
         \/ exists body a b p z,
              resp (serve (record_comparison form) rnd d) = Text 500 body
              /\ form_get form "item1_id" = Some a
              /\ form_get form "item2_id" = Some b
              /\ form_get form "preference" = Some p
              /\ int_of_str p = Ok z
              /\ ((exists e, comparisons d = Raise e) \/ in_int64 z = false))
  /\ (forall form rnd d a b p z l,
         form_get form "item1_id" = Some a ->
         form_get form "item2_id" = Some b ->
         form_get form "preference" = Some p ->
         int_of_str p = Ok z ->
         in_int64 z = true ->
         comparisons d = Ok l ->
         resp (serve (record_comparison form) rnd d) = Redirect "/"
         /\ exists row,
              db_after (serve (record_comparison form) rnd d)
              = {| items := items d; comparisons := Ok (l ++ [row]) |}
              /\ score row = VInt z
              /\ (affinity_exact a = true ->
                  item1_id row = integer_affinity (VStr a))
              /\ (affinity_exact b = true ->
                  item2_id row = integer_affinity (VStr b))).
Proof.
  split; [|split].
  - intros form rnd d H. unfold parses in H. simpl in H.
    run_record_comparison.
    destruct (form_get form "item1_id") as [a|]; simpl;
      [|repeat split; eexists (Exn KeyError _); reflexivity].
    destruct (form_get form "item2_id") as [b|]; simpl;
      [|repeat split; eexists (Exn KeyError _); reflexivity].
    destruct (form_get form "preference") as [p|]; simpl;
      [|repeat split; eexists (Exn KeyError _); reflexivity].
    destruct (int_of_str p) as [z|e] eqn:Hp; simpl.
    + exfalso.
      destruct H as [H|[H|[H|(p' & H & Hbad)]]]; try discriminate.
      injection H as <-. rewrite Hp in Hbad. discriminate.
    + rewrite (int_of_str_raises p e Hp). simpl.
      repeat split. now exists e.
  - intros form rnd d.
    run_record_comparison. unfold bind_param.
    destruct (form_get form "item1_id") as [a|]; simpl; [|now left].
    destruct (form_get form "item2_id") as [b|]; simpl; [|now left].
    destruct (form_get form "preference") as [p|]; simpl; [|now left].
    destruct (int_of_str p) as [z|e0] eqn:Hp; simpl.
    2:{ rewrite (int_of_str_raises p e0 Hp). simpl. now left. }
    destruct (comparisons d) as [l|e] eqn:Hd; simpl.
    + destruct (in_int64 z) eqn:Hz; simpl; [now left|].
      right. exists "An unexpected error occurred.", a, b, p, z.
      repeat split; auto.
    + destruct e as [cls msg]. destruct cls; simpl;
        try (now left);
        right; eexists; exists a, b, p, z;
        (repeat split; try reflexivity; try exact Hp;
         left; eexists; reflexivity).
  - intros form rnd d a b p z l Ha Hb Hp Hz Hr Hd.
    run_record_comparison. unfold bind_param.
    rewrite Ha, Hb, Hp. simpl. rewrite Hz. simpl.
    rewrite Hd. simpl. rewrite Hr. simpl.
    split; [reflexivity|].
    eexists. split; [reflexivity|]. repeat split.
Qed.

Lemma record_comparison_redirects_witness :
  (resp (serve (record_comparison [("item2_id", "2"); ("preference", "5")])
           no_entropy scenario_A) = redirect (url_for "index")
   /\ db_after (serve (record_comparison
                         [("item2_id", "2"); ("preference", "5")])
                  no_entropy scenario_A) = scenario_A
   /\ exists e,
        logged (serve (record_comparison
                         [("item2_id", "2"); ("preference", "5")])
                  no_entropy scenario_A)
        = [ {| lvl := WARNING;
               text := "Invalid form data for comparison: " +++ exn_str e |} ])
  /\ (resp (serve (record_comparison
                     [("item1_id", "2"); ("item2_id", "x"); ("preference", "-3")])
              no_entropy scenario_A) = Redirect "/"
      /\ exists row,
           db_after (serve (record_comparison
                              [("item1_id", "2"); ("item2_id", "x");
                               ("preference", "-3")])
                       no_entropy scenario_A)
           = {| items := items scenario_A;
                comparisons :=
                  Ok ([ {| item1_id := VInt 1; item2_id := VInt 2;
                           score := VInt 5 |} ] ++ [row]) |}
           /\ score row = VInt (-3)
           /\ (affinity_exact "2" = true ->
               item1_id row = integer_affinity (VStr "2"))
           /\ (affinity_exact "x" = true ->
               item2_id row = integer_affinity (VStr "x"))).
Proof.
  split.
  - apply (proj1 record_comparison_redirects
             [("item2_id", "2"); ("preference", "5")] no_entropy scenario_A).
    left. reflexivity.
  - apply (proj2 (proj2 record_comparison_redirects)
             [("item1_id", "2"); ("item2_id", "x"); ("preference", "-3")]
             no_entropy scenario_A "2" "x" "-3" (-3)
             [ {| item1_id := VInt 1; item2_id := VInt 2; score := VInt 5 |} ]);
      reflexivity.
Defined.

(** ** Sorting *)

Section SortFacts.
Context {A : Type}.
Variable before : A -> A -> bool.

Lemma insert_by_perm x l : Permutation (x :: l) (insert_by before x l).
Proof.
  induction l as [|y l IH]; simpl; [apply Permutation_refl|].
  destruct (before x y); [apply Permutation_refl|].
  eapply Permutation_trans; [apply perm_swap|]. now constructor.
Qed.

Lemma sort_by_perm l : Permutation l (sort_by before l).
Proof.
  induction l as [|x l IH]; simpl; [constructor|].
  eapply Permutation_trans; [|apply insert_by_perm]. now constructor.
Qed.
End SortFacts.

Section Descending.
Context {A : Type}.
Variable key : A -> Z.

Let desc (x y : A) : bool := key y <=? key x.
Let ge_key (a b : A) : Prop := key b <= key a.

Lemma insert_desc_sorted x l :
  StronglySorted ge_key l -> StronglySorted ge_key (insert_by desc x l).
Proof.
  induction 1 as [|y l Hs IH Hy]; simpl.
  - repeat constructor.
  - unfold desc at 1. destruct (key y <=? key x) eqn:E.
    + apply Z.leb_le in E. constructor; [now constructor|].
      constructor; [exact E|].
      eapply Forall_impl; [|exact Hy].
      unfold ge_key. intros; lia.
    + apply Z.leb_gt in E. constructor; [exact IH|].
      eapply Permutation_Forall; [apply insert_by_perm|].
      constructor; [unfold ge_key; lia | exact Hy].
Qed.

Lemma sort_desc_sorted l : StronglySorted ge_key (sort_by desc l).
Proof.
  induction l as [|x l IH]; simpl; [constructor|].
  now apply insert_desc_sorted.
Qed.

(** Insertion does not carry an element over one of the same key. *)
Lemma insert_desc_filter r x l :
  filter (fun a => key a =? r) (insert_by desc x l)
  = filter (fun a => key a =? r) (x :: l).
Proof.
  induction l as [|y l IH]; [reflexivity|].
  simpl insert_by. unfold desc at 1.
  destruct (key y <=? key x) eqn:E; [reflexivity|].
  apply Z.leb_gt in E.
  simpl in *. rewrite IH.
  destruct (key x =? r) eqn:Ex, (key y =? r) eqn:Ey; try reflexivity.
  apply Z.eqb_eq in Ex, Ey. lia.
Qed.

Lemma sort_desc_stable r l :
  filter (fun a => key a =? r) (sort_by desc l)
  = filter (fun a => key a =? r) l.
Proof.
  induction l as [|x l IH]; [reflexivity|].
  simpl sort_by. rewrite insert_desc_filter. simpl. now rewrite IH.
Qed.
End Descending.

(** ** Claims on the listing *)

(** C7, with the ranks the spec gives, fails: in its scenario the rank of Y
    is 2 - 3 = -1, not 1. *)
Lemma scenario_B_rank_of_Y :
  items scenario_B = Ok [ {| item_id := 1; item_name := "X" |};
                          {| item_id := 2; item_name := "Y" |};
                          {| item_id := 3; item_name := "Z" |} ]
  /\ returns (calculate_relative_rank (VInt 2))
       (open_connection no_entropy scenario_B) (-1)
  /\ ~ returns (calculate_relative_rank (VInt 2))
         (open_connection no_entropy scenario_B) 1.
Proof.
  split; [reflexivity|]. split; [reflexivity|].
  unfold returns. simpl. discriminate.
Qed.

(** C7 (amended). Whenever the rows of [items] can be read, the listing is
    the entries of all items, each with the rank
    [calculate_relative_rank] gives it, in descending order of rank, and the
    entries of equal rank stand in the order of the rows in the store.  With
    items X, Y, Z and the comparisons (X,Y,3), (Y,Z,2), (X,Z,-1) the ranks
    are X = 2, Y = -1, Z = -1 and the listing is X, Y, Z. *)
Theorem listing_descending_stable :
  (forall form w l,
      items (current (conn w)) = Ok l ->
      exists ranked,
        returns (index GET form) w (Render "index.html" (IndexCtx ranked))
        /\ Permutation (map (entry w) l) ranked
        /\ StronglySorted (fun a b => rank b <= rank a) ranked
        /\ forall r, filter (fun a => rank a =? r) ranked
                     = filter (fun a => rank a =? r) (map (entry w) l))
  /\ (forall rnd,
         resp (serve (index GET []) rnd scenario_B)
         = Render "index.html"
             (IndexCtx [ {| id := 1; name := "X"; rank := 2 |};
                         {| id := 2; name := "Y"; rank := -1 |};
                         {| id := 3; name := "Z"; rank := -1 |} ])).
Proof.
  split; [|intro rnd; reflexivity].
  intros form w l Hl.
  destruct (index_get_run form w l Hl) as [lg H].
  exists (sort_ranked (map (entry w) l)).
  split; [unfold returns; now rewrite H|].
  split; [apply sort_by_perm|].
  split; [apply (sort_desc_sorted rank) | intro r; apply sort_desc_stable].
Qed.

Lemma listing_descending_stable_witness :
  exists ranked,
    returns (index GET []) (open_connection no_entropy scenario_A)
      (Render "index.html" (IndexCtx ranked))
    /\ Permutation
         (map (entry (open_connection no_entropy scenario_A))
            [ {| item_id := 1; item_name := "X" |};
              {| item_id := 2; item_name := "Y" |} ])
         ranked
    /\ StronglySorted (fun a b => rank b <= rank a) ranked
    /\ forall r, filter (fun a => rank a =? r) ranked
                 = filter (fun a => rank a =? r)
                     (map (entry (open_connection no_entropy scenario_A))
                        [ {| item_id := 1; item_name := "X" |};
                          {| item_id := 2; item_name := "Y" |} ]).
Proof.
  apply (proj1 listing_descending_stable []
           (open_connection no_entropy scenario_A)
           [ {| item_id := 1; item_name := "X" |};
             {| item_id := 2; item_name := "Y" |} ]).
  reflexivity.
Defined.

(** ** Claims on [compare_items] *)

Lemma map_snd_combine {A B} (l1 : list A) (l2 : list B) :
  List.length l1 = List.length l2 -> map snd (combine l1 l2) = l2.
Proof.
  revert l2. induction l1 as [|a l1 IH]; intros [|b l2]; simpl;
    intro H; try discriminate; [reflexivity|].
  f_equal. apply IH. now injection H.
Qed.

Lemma order_by_random_perm rnd l : Permutation l (order_by_random rnd l).
Proof.
  unfold order_by_random.
  rewrite <- (map_snd_combine (map rnd (seq 0 (List.length l))) l) at 1
    by now rewrite length_map, length_seq.
  apply Permutation_map, sort_by_perm.
Qed.

(** C8. On a store of 0 or 1 items [compare_items] answers with the
    plain-text message that there are not enough items, and raises nothing;
    on a store of 2 or more items (their ids distinct, as row ids are) it
    renders the comparison page with two items of the store of different
    ids. *)
Theorem compare_items_needs_two :
  (forall w l,
      items (current (conn w)) = Ok l ->
      (List.length l < 2)%nat ->
      compare_items w =
      (Ok (Text 200
             "Not enough items in the database to compare (need at least 2)."),
       w))
  /\ (forall w l,
         items (current (conn w)) = Ok l ->
         (2 <= List.length l)%nat ->
         NoDup (map item_id l) ->
         exists a b,
           compare_items w = (Ok (Render "compare.html" (CompareCtx a b)), w)
           /\ In a l /\ In b l /\ item_id a <> item_id b).
Proof.
  split.
  - intros w l Hl Hn.
    unfold compare_items, select_two_random_items, select_count_items.
    run_handler. rewrite Hl.
    pose proof (Permutation_length (order_by_random_perm (entropy w) l)) as HL.
    destruct (order_by_random (entropy w) l) as [|a [|b rest]]; simpl in *.
    + rewrite Hl. destruct l as [|? [|? ?]]; simpl in *; try lia;
        reflexivity.
    + rewrite Hl. destruct l as [|? [|? ?]]; simpl in *; try lia;
        reflexivity.
    + lia.
  - intros w l Hl Hn Hnd.
    unfold compare_items, select_two_random_items.
    run_handler. rewrite Hl.
    pose proof (order_by_random_perm (entropy w) l) as HP.
    pose proof (Permutation_length HP) as HL.
    destruct (order_by_random (entropy w) l) as [|a [|b rest]];
      simpl in *; try lia.
    exists a, b. split; [reflexivity|].
    split; [apply (Permutation_in _ (Permutation_sym HP)); now left|].
    split; [apply (Permutation_in _ (Permutation_sym HP)); right; now left|].
    apply (Permutation_map item_id) in HP.
    apply (Permutation_NoDup HP) in Hnd. simpl in Hnd.
    inversion Hnd as [|? ? Hnot _]. intro E. apply Hnot. left. now rewrite E.
Qed.

Lemma compare_items_needs_two_witness :
  compare_items
    (open_connection no_entropy
       {| items := Ok [ {| item_id := 1; item_name := "X" |} ];
          comparisons := Ok [] |})
  = (Ok (Text 200
           "Not enough items in the database to compare (need at least 2)."),
     open_connection no_entropy
       {| items := Ok [ {| item_id := 1; item_name := "X" |} ];
          comparisons := Ok [] |})
  /\ exists a b,
       compare_items (open_connection (fun i => - Z.of_nat i) scenario_B)
       = (Ok (Render "compare.html" (CompareCtx a b)),
          open_connection (fun i => - Z.of_nat i) scenario_B)
       /\ In a [ {| item_id := 1; item_name := "X" |};
                 {| item_id := 2; item_name := "Y" |};
                 {| item_id := 3; item_name := "Z" |} ]
       /\ In b [ {| item_id := 1; item_name := "X" |};
                 {| item_id := 2; item_name := "Y" |};
                 {| item_id := 3; item_name := "Z" |} ]
       /\ item_id a <> item_id b.
Proof.
  split.
  - apply (proj1 compare_items_needs_two
             (open_connection no_entropy
                {| items := Ok [ {| item_id := 1; item_name := "X" |} ];
                   comparisons := Ok [] |})
             [ {| item_id := 1; item_name := "X" |} ]);
      [reflexivity | simpl; lia].
  - apply (proj2 compare_items_needs_two
             (open_connection (fun i => - Z.of_nat i) scenario_B)
             [ {| item_id := 1; item_name := "X" |};
               {| item_id := 2; item_name := "Y" |};
               {| item_id := 3; item_name := "Z" |} ]);
      [reflexivity | simpl; lia |].
    simpl. repeat constructor; simpl; intuition discriminate.
Defined.

(** ** Claims on the creation of items *)

Lemma fold_max_upper a r x :
  In x (a :: r) -> x <= fold_right Z.max a r.
Proof.
  induction r as [|b r IH]; simpl.
  - intros [<-|[]]. lia.
  - intros [<-|[<-|H]]; [|lia|].
    + assert (a <= fold_right Z.max a r) by (apply IH; now left). lia.
    + assert (x <= fold_right Z.max a r) by (apply IH; now right). lia.
Qed.

(** The row id of a new row is in use by no row. *)
Lemma next_rowid_fresh l : ~ In (next_rowid l) (map item_id l).
Proof.
  destruct l as [|i r]; simpl; [tauto|].
  intro H.
  assert (fold_right Z.max (item_id i) (map item_id r) + 1
          <= fold_right Z.max (item_id i) (map item_id r))
    by (apply fold_max_upper; exact H).
  lia.
Qed.

(** The ids of [items] stay distinct when a row is inserted. *)
Lemma insert_keeps_ids_distinct l n :
  NoDup (map item_id l) ->
  NoDup (map item_id (l ++ [ {| item_id := next_rowid l; item_name := n |} ])).
Proof.
  intro H. rewrite map_app. simpl.
  apply NoDup_app; [exact H | repeat constructor; simpl; tauto |].
  intros x Hx [<-|[]]. exact (next_rowid_fresh l Hx).
Qed.

Lemma strip_nonempty n : strip n <> EmptyString -> str_bool n = true.
Proof. destruct n; simpl; [intro H; now elim H | reflexivity]. Qed.

(** ** Trimming *)

Lemma rtrim_idempotent sp s : rtrim sp (rtrim sp s) = rtrim sp s.
Proof.
  induction s as [|c r IH]; simpl; [reflexivity|].
  destruct (rtrim sp r) as [|c' r'] eqn:E.
  - destruct (sp c) eqn:Ec; simpl; [reflexivity | now rewrite Ec].
  - simpl in *. now rewrite IH.
Qed.

Lemma rtrim_head sp c r :
  sp c = false -> exists r', rtrim sp (String c r) = String c r'.
Proof.
  intro Hc. simpl. destruct (rtrim sp r).
  - rewrite Hc. now exists EmptyString.
  - eexists; reflexivity.
Qed.

Lemma ltrim_head sp s :
  ltrim sp s = EmptyString
  \/ exists c r, ltrim sp s = String c r /\ sp c = false.
Proof.
  induction s as [|c r IH]; simpl; [now left|].
  destruct (sp c) eqn:Ec; [exact IH|].
  right. now exists c, r.
Qed.

Lemma strip_idempotent s : strip (strip s) = strip s.
Proof.
  unfold strip.
  destruct (ltrim_head is_space s) as [->|(c & r & -> & Hc)]; [reflexivity|].
  destruct (rtrim_head is_space c r Hc) as [r' E].
  rewrite E. simpl ltrim. rewrite Hc. rewrite <- E.
  apply rtrim_idempotent.
Qed.

Lemma name_stored_strip n : strip n <> EmptyString -> name_stored (strip n) = true.
Proof.
  intro H. unfold name_stored. rewrite strip_idempotent, String.eqb_refl.
  destruct (strip n); [now elim H | reflexivity].
Qed.

(** What [strip] takes off is white space, and it leaves none at the ends. *)

Lemma all_space_app s t :
  all_space (s +++ t) = all_space s && all_space t.
Proof.
  induction s as [|c s IH]; simpl; [reflexivity|].
  now rewrite IH, andb_assoc.
Qed.

Lemma ltrim_split s :
  exists pre, s = pre +++ ltrim is_space s /\ all_space pre = true.
Proof.
  induction s as [|c r (pre & E & Hpre)]; simpl.
  - now exists EmptyString.
  - destruct (is_space c) eqn:Ec.
    + exists (String c pre). simpl. rewrite Ec, Hpre, <- E. now split.
    + now exists EmptyString.
Qed.

Lemma rtrim_split s :
  exists post, s = rtrim is_space s +++ post /\ all_space post = true.
Proof.
  induction s as [|c r (post & E & Hpost)]; simpl.
  - now exists EmptyString.
  - destruct (rtrim is_space r) as [|c' r'] eqn:Er.
    + simpl in E. subst post. destruct (is_space c) eqn:Ec.
      * exists (String c r). simpl. now rewrite Ec, Hpost.
      * exists r. now split.
    + exists post. split; [|exact Hpost]. simpl in *. congruence.
Qed.

Lemma rtrim_last s :
  forall c, last_char (rtrim is_space s) = Some c -> is_space c = false.
Proof.
  induction s as [|c0 r IH]; intros c; simpl; [discriminate|].
  destruct (rtrim is_space r) as [|c' r'] eqn:Er.
  - destruct (is_space c0) eqn:Ec; simpl; [discriminate|].
    intro H. injection H as <-. exact Ec.
  - intro H. apply IH. exact H.
Qed.

Lemma strip_first s c : first_char (strip s) = Some c -> is_space c = false.
Proof.
  unfold strip.
  destruct (ltrim_head is_space s) as [->|(c0 & r & -> & Hc)];
    [discriminate|].
  destruct (rtrim_head is_space c0 r Hc) as [r' ->]. simpl.
  intro H. injection H as <-. exact Hc.
Qed.

Lemma strip_no_space_at_ends s : no_space_at_ends (strip s) = true.
Proof.
  unfold no_space_at_ends.
  destruct (first_char (strip s)) as [a|] eqn:Ea; [|reflexivity].
  destruct (last_char (strip s)) as [b|] eqn:Eb; [|reflexivity].
  rewrite (strip_first s a Ea). unfold strip in Eb.
  now rewrite (rtrim_last _ b Eb).
Qed.

Lemma strip_split s :
  exists pre post,
    s = pre +++ strip s +++ post
    /\ all_space pre = true /\ all_space post = true.
Proof.
  destruct (ltrim_split s) as (pre & E & Hpre).
  destruct (rtrim_split (ltrim is_space s)) as (post & E' & Hpost).
  exists pre, post. unfold strip. rewrite <- E', <- E. now split.
Qed.

Lemma all_space_strip s : all_space s = true <-> strip s = EmptyString.
Proof.
  split.
  - intro H. unfold strip.
    assert (E : ltrim is_space s = EmptyString).
    { induction s as [|c r IH]; simpl in *; [reflexivity|].
      apply andb_true_iff in H. destruct H as [-> Hr]. now apply IH. }
    now rewrite E.
  - intro H. destruct (strip_split s) as (pre & post & E & Hpre & Hpost).
    rewrite E, H. simpl. now rewrite all_space_app, Hpre, Hpost.
Qed.

(** C9. A submitted name that is empty, or white space only, changes
    nothing and is answered with the redirect, nothing logged.  Any other
    name, on a store whose [items] can be written, adds exactly one row: it
    has a row id no other row has, and its name is the submitted name
    without the white space before and after it (what was taken off is
    white space, what is stored is not empty and neither begins nor ends
    with white space); the answer is the redirect, and every later listing
    has an entry of that id with that name. *)
Theorem create_item_trimmed :
  (forall form rnd d n,
      form_get form "item_name" = Some n ->
      all_space n = true ->
      serve (index POST form) rnd d
      = {| resp := redirect (url_for "index"); db_after := d; logged := [] |})
  /\ (forall form rnd d n l,
         form_get form "item_name" = Some n ->
         all_space n = false ->
         items d = Ok l ->
         exists stored before after,
           n = before +++ stored +++ after
           /\ all_space before = true
           /\ all_space after = true
           /\ stored <> EmptyString
           /\ no_space_at_ends stored = true
           /\ resp (serve (index POST form) rnd d) = redirect (url_for "index")
           /\ logged (serve (index POST form) rnd d) = []
           /\ db_after (serve (index POST form) rnd d)
              = {| items := Ok (l ++ [ {| item_id := next_rowid l;
                                          item_name := stored |} ]);
                   comparisons := comparisons d |}
           /\ ~ In (next_rowid l) (map item_id l)
           /\ forall form' rnd',
                exists ranked r,
                  resp (serve (index GET form') rnd'
                          (db_after (serve (index POST form) rnd d)))
                  = Render "index.html" (IndexCtx ranked)
                  /\ In {| id := next_rowid l; name := stored; rank := r |}
                       ranked).
Proof.
  split.
  - intros form rnd d n Hn Hs. apply all_space_strip in Hs.
    unfold serve, index, open_connection. run_handler.
    rewrite Hn, Hs. simpl. rewrite andb_false_r. reflexivity.
  - intros form rnd d n l Hn Hs Hl.
    assert (Hne : strip n <> EmptyString).
    { intro E. apply all_space_strip in E. congruence. }
    assert (E : serve (index POST form) rnd d
                = {| resp := redirect (url_for "index");
                     db_after :=
                       {| items := Ok (l ++ [ {| item_id := next_rowid l;
                                                 item_name := strip n |} ]);
                          comparisons := comparisons d |};
                     logged := [] |}).
    { unfold serve, index, insert_item, open_connection. run_handler.
      rewrite Hn, (strip_nonempty n Hne).
      destruct (strip n) eqn:En; [now elim Hne|]. simpl.
      rewrite Hl. reflexivity. }
    destruct (strip_split n) as (pre & post & En & Hpre & Hpost).
    exists (strip n), pre, post.
    rewrite E. cbn [resp logged db_after].
    split; [exact En|]. split; [exact Hpre|]. split; [exact Hpost|].
    split; [exact Hne|]. split; [apply strip_no_space_at_ends|].
    split; [reflexivity|]. split; [reflexivity|]. split; [reflexivity|].
    split; [apply next_rowid_fresh|].
    intros form' rnd'.
    set (d' := {| items := Ok (l ++ [ {| item_id := next_rowid l;
                                         item_name := strip n |} ]);
                  comparisons := comparisons d |}).
    destruct (index_get_run form' (open_connection rnd' d') _ eq_refl)
      as [lg H].
    eexists. exists (rank_of (open_connection rnd' d') (next_rowid l)).
    unfold serve. rewrite H. cbn [resp]. split; [reflexivity|].
    eapply Permutation_in; [apply sort_by_perm|].
    rewrite map_app. apply in_or_app. right. left. reflexivity.
Qed.

Lemma create_item_trimmed_witness :
  serve (index POST [("item_name", "   ")]) no_entropy scenario_A
  = {| resp := redirect (url_for "index"); db_after := scenario_A;
       logged := [] |}
  /\ exists stored before after,
       " tea pot " = before +++ stored +++ after
       /\ all_space before = true
       /\ all_space after = true
       /\ stored <> EmptyString
       /\ no_space_at_ends stored = true
       /\ db_after (serve (index POST [("item_name", " tea pot ")]) no_entropy
                      scenario_A)
          = {| items := Ok ([ {| item_id := 1; item_name := "X" |};
                              {| item_id := 2; item_name := "Y" |} ]
                            ++ [ {| item_id :=
                                      next_rowid
                                        [ {| item_id := 1; item_name := "X" |};
                                          {| item_id := 2; item_name := "Y" |} ];
                                    item_name := stored |} ]);
               comparisons := comparisons scenario_A |}.
Proof.
  split.
  - apply (proj1 create_item_trimmed [("item_name", "   ")] no_entropy
             scenario_A "   "); reflexivity.
  - destruct (proj2 create_item_trimmed [("item_name", " tea pot ")]
                no_entropy scenario_A " tea pot "
                [ {| item_id := 1; item_name := "X" |};
                  {| item_id := 2; item_name := "Y" |} ]
                eq_refl eq_refl eq_refl)
      as (stored & pre & post & H1 & H2 & H3 & H4 & H5 & _ & _ & H8 & _).
    exists stored, pre, post. repeat split; assumption.
Defined.

(** The stored name, on an example. *)
Example create_item_stores_tea_pot :
  db_after (serve (index POST [("item_name", "  tea pot ")]) no_entropy
              scenario_A)
  = {| items := Ok [ {| item_id := 1; item_name := "X" |};
                     {| item_id := 2; item_name := "Y" |};
                     {| item_id := 3; item_name := "tea pot" |} ];
       comparisons := comparisons scenario_A |}.
Proof. reflexivity. Qed.

(** * Further properties of the handlers *)

(** ** What each handler leaves in the store *)

Lemma serve_db_after h rnd d : db_after (serve h rnd d) = stored_after h rnd d.
Proof.
  unfold serve, stored_after.
  destruct (h (open_connection rnd d)) as [[r|e] w']; reflexivity.
Qed.

Lemma compare_items_conn w : conn (snd (compare_items w)) = conn w.
Proof.
  unfold compare_items, select_two_random_items, select_count_items.
  run_handler.
  destruct (items (current (conn w))) as [l|e] eqn:Hl.
  - destruct (order_by_random (entropy w) l) as [|a [|b r]];
      simpl; rewrite ?Hl; simpl;
      try destruct (Z.of_nat (List.length l) <? 2); reflexivity.
  - destruct (exn_cls e); simpl; try reflexivity;
      destruct (str_contains "no such table: items" (exn_str e)); reflexivity.
Qed.

Lemma index_get_conn form w : conn (snd (index GET form w)) = conn w.
Proof.
  destruct (items (current (conn w))) as [l|e] eqn:Hl.
  - destruct (index_get_run form w l Hl) as [lg H]. now rewrite H.
  - unfold index, select_items. run_handler. rewrite Hl.
    destruct (exn_cls e); simpl; try reflexivity;
      destruct (str_contains "no such table: items" (exn_str e)); reflexivity.
Qed.

Lemma view_database_committed w :
  committed (conn (snd (view_database w))) = committed (conn w).
Proof.
  unfold view_database, select_items_by_id, select_comparisons_ordered, close.
  run_handler.
  destruct (items (current (conn w))); simpl; [|reflexivity].
  destruct (comparisons (current (conn w))); reflexivity.
Qed.

Lemma index_post_cases form rnd d :
  stored_after (index POST form) rnd d = d
  \/ exists n l,
       form_get form "item_name" = Some n
       /\ strip n <> EmptyString
       /\ items d = Ok l
       /\ stored_after (index POST form) rnd d
          = {| items := Ok (l ++ [ {| item_id := next_rowid l;
                                      item_name := strip n |} ]);
               comparisons := comparisons d |}.
Proof.
  unfold stored_after, index, insert_item, open_connection. run_handler.
  destruct (form_get form "item_name") as [n|]; simpl; [|now left].
  destruct (str_bool n); simpl; [|now left].
  destruct (strip n) as [|c s] eqn:En; simpl; [now left|].
  destruct (items d) as [l|e] eqn:Hl; simpl.
  - right. exists n, l. rewrite En. repeat split; congruence.
  - left. destruct (exn_cls e); reflexivity.
Qed.

Lemma record_comparison_cases form rnd d :
  stored_after (record_comparison form) rnd d = d
  \/ exists a b p z l,
       form_get form "item1_id" = Some a
       /\ form_get form "item2_id" = Some b
       /\ form_get form "preference" = Some p
       /\ int_of_str p = Ok z
       /\ in_int64 z = true
       /\ comparisons d = Ok l
       /\ stored_after (record_comparison form) rnd d
          = {| items := items d;
               comparisons :=
                 Ok (l ++ [ {| item1_id := integer_affinity (VStr a);
                               item2_id := integer_affinity (VStr b);
                               score := VInt z |} ]) |}.
Proof.
  unfold stored_after. run_record_comparison. unfold bind_param.
  destruct (form_get form "item1_id") as [a|]; simpl; [|now left].
  destruct (form_get form "item2_id") as [b|]; simpl; [|now left].
  destruct (form_get form "preference") as [p|]; simpl; [|now left].
  destruct (int_of_str p) as [z|e0] eqn:Hp; simpl.
  2:{ rewrite (int_of_str_raises p e0 Hp). now left. }
  destruct (comparisons d) as [l|e] eqn:Hd; simpl.
  - destruct (in_int64 z) eqn:Hz; simpl; [|now left].
    right. exists a, b, p, z, l. repeat split; auto.
  - left. destruct (exn_cls e); reflexivity.
Qed.

Lemma handle_get r rnd d :
  r = GetIndex \/ r = GetCompare \/ r = GetDatabase -> handle r rnd d = d.
Proof.
  intros [ -> | [ -> | -> ] ]; unfold handle, stored_after.
  - now rewrite index_get_conn.
  - now rewrite compare_items_conn.
  - now rewrite view_database_committed.
Qed.

(** ** The invariants of the store *)

Lemma sql_integer_literal_int64 s z :
  sql_integer_literal s = Some z -> in_int64 z = true.
Proof.
  unfold sql_integer_literal.
  match goal with
  | |- match ?r with _ => _ end = _ -> _ => destruct r as [z'|]
  end; [|discriminate].
  destruct (in_int64 z') eqn:E; [|discriminate].
  intro H. injection H as <-. exact E.
Qed.

Lemma id_stored_affinity a : id_stored (integer_affinity (VStr a)) = true.
Proof. simpl. now destruct (sql_integer_literal a). Qed.

Lemma next_rowid_positive l :
  forallb item_stored l = true -> 0 < next_rowid l.
Proof.
  destruct l as [|i r]; simpl; [lia|].
  intro H. apply andb_true_iff in H. destruct H as [Hi _].
  unfold item_stored in Hi. apply andb_true_iff in Hi. destruct Hi as [Hi _].
  apply Z.ltb_lt in Hi.
  assert (item_id i <= fold_right Z.max (item_id i) (map item_id r))
    by (apply fold_max_upper; now left).
  lia.
Qed.

Lemma store_ok_handle r rnd d : store_ok d -> store_ok (handle r rnd d).
Proof.
  intros [Hi Hc].
  destruct r as [|form| |form|];
    try (rewrite handle_get by tauto; now split).
  - unfold handle.
    destruct (index_post_cases form rnd d)
      as [->|(n & l & Hn & Hs & Hl & ->)]; [now split|].
    destruct (Hi l Hl) as [Hnd Hall].
    split; simpl; [|exact Hc].
    intros l' E. injection E as <-. split.
    + now apply insert_keeps_ids_distinct.
    + rewrite forallb_app, Hall. simpl.
      unfold item_stored. simpl.
      rewrite (name_stored_strip n Hs).
      pose proof (next_rowid_positive l Hall) as Hp.
      apply Z.ltb_lt in Hp. now rewrite Hp.
  - unfold handle.
    destruct (record_comparison_cases form rnd d)
      as [->|(a & b & p & z & l & _ & _ & _ & _ & Hz & Hl & ->)];
      [now split|].
    split; cbn [items comparisons]; [exact Hi|].
    intros cs E. injection E as <-.
    rewrite forallb_app, (Hc l Hl). cbn [forallb andb].
    unfold row_stored. cbn [item1_id item2_id score].
    fold (integer_affinity (VStr a)) (integer_affinity (VStr b)).
    rewrite !id_stored_affinity. cbn [score_stored andb]. now rewrite Hz.
Qed.

(** X1. Every request keeps the store well formed, so a store filled
    through the handlers from the empty one always is: the ids of the items
    are positive and distinct, every name is non-empty and has nothing left
    to trim, every score is a 64-bit integer, and no id column of a
    comparison is NULL. *)
Theorem store_stays_well_formed :
  (forall r rnd d, store_ok d -> store_ok (handle r rnd d))
  /\ (forall trace, store_ok (replay trace empty_db)).
Proof.
  split; [exact store_ok_handle|].
  assert (H : forall trace d, store_ok d -> store_ok (replay trace d)).
  { induction trace as [|[r rnd] trace IH]; intros d Hd; simpl; [exact Hd|].
    apply IH. now apply store_ok_handle. }
  intro trace. apply H. split; simpl.
  - intros l E. injection E as <-. split; [constructor | reflexivity].
  - intros cs E. injection E as <-. reflexivity.
Qed.

Lemma store_stays_well_formed_witness :
  store_ok (handle (PostIndex [("item_name", " tea ")]) no_entropy scenario_A).
Proof.
  apply (proj1 store_stays_well_formed).
  split; simpl.
  - intros l E. injection E as <-. split; [|reflexivity].
    repeat constructor; simpl; intuition discriminate.
  - intros cs E. injection E as <-. reflexivity.
Defined.

(** ** The store only grows *)

Lemma extends_refl {A} (t : table A) : extends t t.
Proof. destruct t as [l|e]; simpl; [exists []; now rewrite app_nil_r | reflexivity]. Qed.

Lemma extends_trans {A} (t1 t2 t3 : table A) :
  extends t1 t2 -> extends t2 t3 -> extends t1 t3.
Proof.
  destruct t1 as [l|e]; simpl.
  - intros [m ->]. simpl. intros [m' ->]. exists (m ++ m').
    now rewrite app_assoc.
  - intros ->. simpl. auto.
Qed.

Lemma handle_extends r rnd d :
  extends (items d) (items (handle r rnd d))
  /\ extends (comparisons d) (comparisons (handle r rnd d)).
Proof.
  destruct r as [|form| |form|];
    try (rewrite handle_get by tauto; split; apply extends_refl).
  - unfold handle.
    destruct (index_post_cases form rnd d)
      as [->|(n & l & _ & _ & Hl & ->)]; [split; apply extends_refl|].
    simpl. split; [|apply extends_refl].
    rewrite Hl. simpl. eexists; reflexivity.
  - unfold handle.
    destruct (record_comparison_cases form rnd d)
      as [->|(a & b & p & z & l & _ & _ & _ & _ & _ & Hl & ->)];
      [split; apply extends_refl|].
    simpl. split; [apply extends_refl|].
    rewrite Hl. simpl. eexists; reflexivity.
Qed.

Lemma replay_extends trace :
  forall d,
    extends (items d) (items (replay trace d))
    /\ extends (comparisons d) (comparisons (replay trace d)).
Proof.
  induction trace as [|[r rnd] trace IH]; intro d; simpl.
  - split; apply extends_refl.
  - destruct (handle_extends r rnd d) as [H1 H2].
    destruct (IH (handle r rnd d)) as [H3 H4].
    split; eapply extends_trans; eassumption.
Qed.

(** X2. The two relations only grow: whatever requests are served, the rows
    that were stored are still there, in front and in the same order, and a
    relation that cannot be read stays so.  One request stores at most one
    new row, at the end of one relation. *)
Theorem store_only_grows :
  (forall trace d,
      extends (items d) (items (replay trace d))
      /\ extends (comparisons d) (comparisons (replay trace d)))
  /\ (forall r rnd d,
         handle r rnd d = d
         \/ (exists l i,
               items d = Ok l
               /\ handle r rnd d
                  = {| items := Ok (l ++ [i]); comparisons := comparisons d |})
         \/ (exists l c,
               comparisons d = Ok l
               /\ handle r rnd d
                  = {| items := items d; comparisons := Ok (l ++ [c]) |})).
Proof.
  split; [intros trace d; apply replay_extends|].
  intros r rnd d.
  destruct r as [|form| |form|];
    try (left; apply handle_get; tauto).
  - unfold handle.
    destruct (index_post_cases form rnd d)
      as [->|(n & l & _ & _ & Hl & ->)]; [now left|].
    right. left. eexists; eexists; split; [exact Hl | reflexivity].
  - unfold handle.
    destruct (record_comparison_cases form rnd d)
      as [->|(a & b & p & z & l & _ & _ & _ & _ & _ & Hl & ->)]; [now left|].
    right. right. eexists; eexists; split; [exact Hl | reflexivity].
Qed.

Lemma rank_of_depends_on_log w w' x :
  comparisons (current (conn w)) = comparisons (current (conn w')) ->
  rank_of w x = rank_of w' x.
Proof. intro H. now rewrite !rank_of_body, H. Qed.

Lemma serve_index_get form rnd d l :
  items d = Ok l ->
  resp (serve (index GET form) rnd d)
  = Render "index.html"
      (IndexCtx (sort_ranked (map (entry (open_connection rnd d)) l))).
Proof.
  intro Hl.
  destruct (index_get_run form (open_connection rnd d) l Hl) as [lg H].
  unfold serve. now rewrite H.
Qed.

Lemma serve_index_get_independent form form' rnd rnd' d :
  resp (serve (index GET form) rnd d) = resp (serve (index GET form') rnd' d).
Proof.
  destruct (items d) as [l|e] eqn:Hl.
  - rewrite !(serve_index_get _ _ d l Hl). do 3 f_equal.
    apply map_ext. intro i. unfold entry. f_equal.
    now apply rank_of_depends_on_log.
  - unfold serve, index, select_items, open_connection. run_handler.
    rewrite Hl.
    destruct (exn_cls e); simpl; try reflexivity;
      destruct (str_contains "no such table: items" (exn_str e)); reflexivity.
Qed.

(** X3. The three GET handlers store nothing: after [GET /], [GET /compare]
    and [GET /database] the stored database is what it was, whatever it was.
    The listing depends on the stored database only, so asking for it again
    gives the same page. *)
Theorem get_requests_store_nothing :
  (forall form rnd d, db_after (serve (index GET form) rnd d) = d)
  /\ (forall rnd d, db_after (serve compare_items rnd d) = d)
  /\ (forall rnd d, stored_after view_database rnd d = d)
  /\ (forall form form' rnd rnd' d,
         resp (serve (index GET form') rnd'
                 (db_after (serve (index GET form) rnd d)))
         = resp (serve (index GET form) rnd d)).
Proof.
  assert (A : forall form rnd d, db_after (serve (index GET form) rnd d) = d).
  { intros. rewrite serve_db_after. unfold stored_after.
    now rewrite index_get_conn. }
  split; [exact A|]. split; [|split].
  - intros. rewrite serve_db_after. unfold stored_after.
    now rewrite compare_items_conn.
  - intros. unfold stored_after. now rewrite view_database_committed.
  - intros. rewrite A. apply serve_index_get_independent.
Qed.

(** X4. [index] and [record_comparison] never let an exception out: in every
    state of the connection they return a response.  [compare_items] lets
    out exactly the exceptions of the storage that are no
    [OperationalError], and [view_database], which has no [try], lets out
    every exception of its two queries. *)
Theorem exceptions_that_leave_the_handlers :
  (forall m form w, exists r, fst (index m form w) = Ok r)
  /\ (forall form w, exists r, fst (record_comparison form w) = Ok r)
  /\ (forall w e,
         fst (compare_items w) = Raise e
         <-> items (current (conn w)) = Raise e
             /\ exn_cls e <> OperationalError)
  /\ (forall w e,
         fst (view_database w) = Raise e
         <-> items (current (conn w)) = Raise e
             \/ ((exists l, items (current (conn w)) = Ok l)
                 /\ comparisons (current (conn w)) = Raise e)).
Proof.
  split; [|split; [|split]].
  - intros [|] form w.
    + destruct (items (current (conn w))) as [l|e] eqn:Hl.
      * destruct (index_get_run form w l Hl) as [lg H].
        rewrite H. eexists; reflexivity.
      * unfold index, select_items. run_handler. rewrite Hl.
        destruct (exn_cls e); simpl; try (eexists; reflexivity);
          destruct (str_contains "no such table: items" (exn_str e));
          eexists; reflexivity.
    + unfold index, insert_item. run_handler.
      destruct (form_get form "item_name") as [n|]; simpl;
        [|eexists; reflexivity].
      destruct (str_bool n && str_bool (strip n)); simpl;
        [|eexists; reflexivity].
      destruct (items (current (conn w))) as [l|e]; simpl;
        [eexists; reflexivity|].
      destruct (exn_cls e); eexists; reflexivity.
  - intros form w.
    unfold record_comparison, insert_comparison, form_getitem.
    run_handler. unfold bind_param.
    destruct (form_get form "item1_id") as [a|]; simpl;
      [|eexists; reflexivity].
    destruct (form_get form "item2_id") as [b|]; simpl;
      [|eexists; reflexivity].
    destruct (form_get form "preference") as [p|]; simpl;
      [|eexists; reflexivity].
    destruct (int_of_str p) as [z|e0] eqn:Hp; simpl.
    2:{ rewrite (int_of_str_raises p e0 Hp). eexists; reflexivity. }
    destruct (comparisons (current (conn w))) as [l|e]; simpl.
    + destruct (in_int64 z); simpl; eexists; reflexivity.
    + destruct (exn_cls e); eexists; reflexivity.
  - intros w e.
    unfold compare_items, select_two_random_items, select_count_items.
    run_handler.
    destruct (items (current (conn w))) as [l|e'] eqn:Hl.
    + split; [|intros [H _]; discriminate].
      destruct (order_by_random (entropy w) l) as [|a [|b r]];
        simpl; rewrite ?Hl; simpl;
        try destruct (Z.of_nat (List.length l) <? 2); discriminate.
    + split.
      * destruct e' as [cls msg]. destruct cls; simpl;
          try (intro H; injection H as <-; split;
               [reflexivity | discriminate]);
          destruct (str_contains "no such table: items" msg); discriminate.
      * intros [H Hne]. injection H as ->.
        destruct (exn_cls e) eqn:E; try reflexivity. now elim Hne.
  - intros w e.
    unfold view_database, select_items_by_id, select_comparisons_ordered,
      close.
    run_handler.
    destruct (items (current (conn w))) as [l|e1]; simpl.
    + destruct (comparisons (current (conn w))) as [cs|e2]; simpl.
      * split; [discriminate|].
        intros [H|[_ H]]; discriminate.
      * split.
        -- intro H. injection H as <-. right. split; [now exists l | reflexivity].
        -- intros [H|[_ H]]; [discriminate | now injection H as <-].
    + split.
      * intro H. injection H as <-. now left.
      * intros [H|[[l H] _]]; [now injection H as <- | discriminate].
Qed.

Lemma exceptions_that_leave_the_handlers_witness :
  fst (compare_items
         (open_connection no_entropy
            {| items := Raise (Exn OtherException "database disk image is malformed");
               comparisons := Ok [] |}))
  = Raise (Exn OtherException "database disk image is malformed")
  /\ fst (view_database
            (open_connection no_entropy
               {| items := Ok [];
                  comparisons :=
                    Raise (Exn OperationalError
                             "no such table: comparisons") |}))
     = Raise (Exn OperationalError "no such table: comparisons").
Proof.
  split.
  - apply (proj2 (proj1 (proj2 (proj2 exceptions_that_leave_the_handlers))
                    (open_connection no_entropy
                       {| items :=
                            Raise (Exn OtherException
                                     "database disk image is malformed");
                          comparisons := Ok [] |})
                    (Exn OtherException "database disk image is malformed"))).
    split; [reflexivity | discriminate].
  - apply (proj2 (proj2 (proj2 (proj2 exceptions_that_leave_the_handlers))
                    (open_connection no_entropy
                       {| items := Ok [];
                          comparisons :=
                            Raise (Exn OperationalError
                                     "no such table: comparisons") |})
                    (Exn OperationalError "no such table: comparisons"))).
    right. split; [now exists [] | reflexivity].
Defined.

(** X5. When the storage refuses the query on [items] with an
    [OperationalError], [GET /compare] and [GET /] both answer 500: with the
    advice to run [flask init-db] if the text of the error has
    [no such table: items], with the text of the error otherwise.  [POST /]
    with a name to store answers 500 with the text of the error and the
    question whether [flask init-db] was run, and stores nothing. *)
Theorem unreadable_items_answers :
  forall msg rnd d,
    items d = Raise (Exn OperationalError msg) ->
    let page :=
      Text 500
        (if str_contains "no such table: items" msg
         then "Database not initialized. Run 'flask init-db' first."
         else "Database error: " +++ msg) in
    resp (serve compare_items rnd d) = page
    /\ (forall form, resp (serve (index GET form) rnd d) = page)
    /\ (forall form n,
           form_get form "item_name" = Some n ->
           strip n <> EmptyString ->
           resp (serve (index POST form) rnd d)
           = Text 500 ("Database error: " +++ msg
                       +++ ". Did you run 'flask init-db'?")
           /\ db_after (serve (index POST form) rnd d) = d).
Proof.
  intros msg rnd d Hd. cbv zeta. split; [|split].
  - unfold serve, compare_items, select_two_random_items, open_connection.
    run_handler. rewrite Hd. simpl.
    destruct (str_contains "no such table: items" msg); reflexivity.
  - intro form.
    unfold serve, index, select_items, open_connection.
    run_handler. rewrite Hd. simpl.
    destruct (str_contains "no such table: items" msg); reflexivity.
  - intros form n Hn Hs.
    unfold serve, index, insert_item, open_connection. run_handler.
    rewrite Hn, (strip_nonempty n Hs).
    destruct (strip n) eqn:En; [now elim Hs|]. simpl.
    rewrite Hd. simpl. split; [reflexivity|]. now destruct d.
Qed.

Lemma unreadable_items_answers_witness :
  let d := {| items := Raise (Exn OperationalError "no such table: items");
              comparisons :=
                Raise (Exn OperationalError "no such table: comparisons") |} in
  resp (serve compare_items no_entropy d)
  = Text 500 "Database not initialized. Run 'flask init-db' first."
  /\ resp (serve (index GET []) no_entropy d)
     = Text 500 "Database not initialized. Run 'flask init-db' first.".
Proof.
  cbv zeta.
  destruct (unreadable_items_answers "no such table: items" no_entropy
              {| items := Raise (Exn OperationalError "no such table: items");
                 comparisons :=
                   Raise (Exn OperationalError "no such table: comparisons") |}
              eq_refl) as (H1 & H2 & _).
  split; [exact H1 | exact (H2 [])].
Defined.

(** X6. A well-formed form whose row cannot be inserted stores nothing.
    When the storage raises on [comparisons], an [OperationalError] is
    answered with 500 and the text of the error, an [IntegrityError] (as a
    [KeyError] or a [ValueError]) is answered with the redirect as if the
    row had been stored, and any other exception with the 500 of unexpected
    errors.  A score outside the 64-bit range is answered with that 500
    too. *)
Theorem record_comparison_failures :
  forall form rnd d a b p z,
    form_get form "item1_id" = Some a ->
    form_get form "item2_id" = Some b ->
    form_get form "preference" = Some p ->
    int_of_str p = Ok z ->
    (forall e,
        comparisons d = Raise e ->
        db_after (serve (record_comparison form) rnd d) = d
        /\ resp (serve (record_comparison form) rnd d)
           = match exn_cls e with
             | KeyError | ValueError | IntegrityError =>
                 redirect (url_for "index")
             | OperationalError =>
                 Text 500 ("Database error: " +++ exn_str e
                           +++ ". Did you run 'flask init-db'?")
             | _ => Text 500 "An unexpected error occurred."
             end)
    /\ (forall l,
           comparisons d = Ok l ->
           in_int64 z = false ->
           db_after (serve (record_comparison form) rnd d) = d
           /\ resp (serve (record_comparison form) rnd d)
              = Text 500 "An unexpected error occurred.").
Proof.
  intros form rnd d a b p z Ha Hb Hp Hz. split.
  - intros e He. run_record_comparison. unfold bind_param.
    rewrite Ha, Hb, Hp. simpl. rewrite Hz. simpl. rewrite He. simpl.
    destruct (exn_cls e); simpl; split; reflexivity || now destruct d.
  - intros l Hl Hr. run_record_comparison. unfold bind_param.
    rewrite Ha, Hb, Hp. simpl. rewrite Hz. simpl. rewrite Hl. simpl.
    rewrite Hr. simpl. split; [now destruct d | reflexivity].
Qed.

Lemma record_comparison_failures_witness :
  db_after (serve (record_comparison
                     [("item1_id", "1"); ("item2_id", "2");
                      ("preference", "9223372036854775808")])
              no_entropy scenario_A) = scenario_A
  /\ resp (serve (record_comparison
                    [("item1_id", "1"); ("item2_id", "2");
                     ("preference", "9223372036854775808")])
             no_entropy scenario_A)
     = Text 500 "An unexpected error occurred.".
Proof.
  apply (proj2 (record_comparison_failures
                  [("item1_id", "1"); ("item2_id", "2");
                   ("preference", "9223372036854775808")]
                  no_entropy scenario_A "1" "2" "9223372036854775808"
                  9223372036854775808 eq_refl eq_refl eq_refl eq_refl)
           [ {| item1_id := VInt 1; item2_id := VInt 2; score := VInt 5 |} ]);
    reflexivity.
Defined.

(** ** Recording a comparison and the ranks *)

Lemma record_comparison_stores form rnd d a b p z l :
  form_get form "item1_id" = Some a ->
  form_get form "item2_id" = Some b ->
  form_get form "preference" = Some p ->
  int_of_str p = Ok z ->
  in_int64 z = true ->
  comparisons d = Ok l ->
  stored_after (record_comparison form) rnd d
  = {| items := items d;
       comparisons :=
         Ok (l ++ [ {| item1_id := integer_affinity (VStr a);
                       item2_id := integer_affinity (VStr b);
                       score := VInt z |} ]) |}.
Proof.
  intros Ha Hb Hp Hz Hr Hd.
  unfold stored_after. run_record_comparison. unfold bind_param.
  rewrite Ha, Hb, Hp. simpl. rewrite Hz. simpl.
  rewrite Hd. simpl. rewrite Hr. reflexivity.
Qed.

Lemma rank_of_loop rnd d l x :
  comparisons d = Ok l ->
  in_int64 x = true ->
  rank_of (open_connection rnd d) x
  = or_zero (rank_loop x 0 (filter (mentions x) l)).
Proof.
  intros Hl Hx. rewrite rank_of_body.
  now rewrite (rank_body_ok (VInt x) x (open_connection rnd d) l eq_refl Hx Hl).
Qed.

(** X7. A recorded vote moves two ranks and no other.  When the form names
    the items [x] and [y] by integer literals and gives the score [s], and
    the rank of an item [z] was computed from well-formed rows, then after
    the request the rank of [z] is what it was plus [s] if [z] is [x],
    minus [s] if [z] is [y] and not [x], and unchanged otherwise. *)
Theorem vote_moves_two_ranks :
  forall form rnd rnd' d a b p s x y l z r,
    form_get form "item1_id" = Some a ->
    form_get form "item2_id" = Some b ->
    form_get form "preference" = Some p ->
    int_of_str p = Ok s ->
    in_int64 s = true ->
    sql_integer_literal a = Some x ->
    sql_integer_literal b = Some y ->
    comparisons d = Ok l ->
    in_int64 z = true ->
    rank_loop z 0 (filter (mentions z) l) = Ok r ->
    rank_of (open_connection rnd d) z = r
    /\ rank_of (open_connection rnd'
                  (db_after (serve (record_comparison form) rnd d))) z
       = r + (if z =? x then s else if z =? y then - s else 0).
Proof.
  intros form rnd rnd' d a b p s x y l z r Ha Hb Hp Hs Hr Hx Hy Hl Hz Hloop.
  split.
  - now rewrite (rank_of_loop rnd d l z Hl Hz), Hloop.
  - rewrite serve_db_after.
    rewrite (record_comparison_stores form rnd d a b p s l Ha Hb Hp Hs Hr Hl).
    unfold integer_affinity. rewrite Hx, Hy.
    rewrite (rank_of_loop rnd'
               {| items := items d;
                  comparisons :=
                    Ok (l ++ [ {| item1_id := VInt x; item2_id := VInt y;
                                  score := VInt s |} ]) |}
               (l ++ [ {| item1_id := VInt x; item2_id := VInt y;
                          score := VInt s |} ]) z eq_refl Hz).
    rewrite filter_app, rank_loop_app, Hloop. simpl.
    unfold mentions. simpl.
    rewrite (Z.eqb_sym x z), (Z.eqb_sym y z).
    destruct (z =? x) eqn:Ex; simpl.
    + unfold rank_step. simpl. rewrite (Z.eqb_sym x z), Ex. reflexivity.
    + destruct (z =? y) eqn:Ey; simpl.
      * unfold rank_step. simpl.
        rewrite (Z.eqb_sym x z), Ex, (Z.eqb_sym y z), Ey. simpl. lia.
      * lia.
Qed.

Lemma vote_moves_two_ranks_witness :
  rank_of (open_connection no_entropy scenario_A) 2 = -5
  /\ rank_of (open_connection no_entropy
                (db_after (serve (record_comparison
                                    [("item1_id", "2"); ("item2_id", " 1 ");
                                     ("preference", "+3")])
                             no_entropy scenario_A))) 2
     = -5 + (if 2 =? 2 then 3 else if 2 =? 1 then - 3 else 0).
Proof.
  apply (vote_moves_two_ranks
           [("item1_id", "2"); ("item2_id", " 1 "); ("preference", "+3")]
           no_entropy no_entropy scenario_A "2" " 1 " "+3" 3 2 1
           [ {| item1_id := VInt 1; item2_id := VInt 2; score := VInt 5 |} ]
           2 (-5)); reflexivity.
Defined.

(** ** The ranks of a listing add up to zero *)

Lemma sum_map_add {A} (f g : A -> Z) l :
  fold_right Z.add 0 (map (fun x => f x + g x) l)
  = fold_right Z.add 0 (map f l) + fold_right Z.add 0 (map g l).
Proof. induction l as [|x l IH]; simpl; lia. Qed.

Lemma existsb_eqb_In a ids : existsb (Z.eqb a) ids = true <-> In a ids.
Proof.
  rewrite existsb_exists. split.
  - intros (x & Hx & E). apply Z.eqb_eq in E. now subst.
  - intro H. exists a. split; [exact H | apply Z.eqb_refl].
Qed.

Lemma sum_indicator a s ids :
  NoDup ids ->
  fold_right Z.add 0 (map (fun x => if a =? x then s else 0) ids)
  = if existsb (Z.eqb a) ids then s else 0.
Proof.
  induction 1 as [|x ids Hx Hnd IH]; simpl; [reflexivity|].
  rewrite IH. destruct (a =? x) eqn:E; simpl; [|reflexivity].
  apply Z.eqb_eq in E. subst x.
  destruct (existsb (Z.eqb a) ids) eqn:Ex; [|lia].
  apply existsb_eqb_In in Ex. contradiction.
Qed.

Lemma proper_row_int_row ids c : proper_row ids c = true -> int_row c = true.
Proof.
  unfold proper_row, int_row.
  destruct (item1_id c), (item2_id c), (score c); auto.
Qed.

Lemma proper_row_contributions ids c :
  NoDup ids ->
  proper_row ids c = true ->
  fold_right Z.add 0 (map (fun x => contribution x c) ids) = 0.
Proof.
  intros Hnd Hp. unfold proper_row in Hp. unfold contribution.
  destruct (item1_id c) as [|a|]; try discriminate.
  destruct (item2_id c) as [|b|]; try discriminate.
  destruct (score c) as [|s|]; try discriminate.
  apply andb_true_iff in Hp. destruct Hp as [Hp Hb].
  apply andb_true_iff in Hp. destruct Hp as [Hab Ha].
  apply negb_true_iff, Z.eqb_neq in Hab.
  simpl.
  rewrite (map_ext _ (fun x => (if a =? x then s else 0)
                               + (if b =? x then - s else 0))).
  - rewrite sum_map_add, !sum_indicator, Ha, Hb by assumption. lia.
  - intro x. destruct (a =? x) eqn:E1, (b =? x) eqn:E2; lia.
Qed.

Lemma elif_ranks_add_up ids cs :
  NoDup ids ->
  forallb (proper_row ids) cs = true ->
  fold_right Z.add 0 (map (fun x => elif_rank x cs) ids) = 0.
Proof.
  intros Hnd. induction cs as [|c cs IH]; simpl.
  - intros _. induction ids; simpl; [reflexivity|].
    inversion Hnd; subst. rewrite IHids by assumption. reflexivity.
  - intro H. apply andb_true_iff in H. destruct H as [Hc Hcs].
    rewrite (map_ext _ (fun x => contribution x c + elif_rank x cs))
      by (intro x; apply elif_rank_cons).
    rewrite sum_map_add, (proper_row_contributions ids c Hnd Hc), (IH Hcs).
    reflexivity.
Qed.

Lemma rank_total_perm l l' :
  Permutation l l' -> rank_total l = rank_total l'.
Proof.
  unfold rank_total. induction 1; simpl; lia.
Qed.

(** X8. When every recorded comparison is between two different items of
    the store and holds integers, the ranks of the listing add up to zero:
    what a vote gives to one item it takes from another. *)
Theorem listing_ranks_add_up_to_zero :
  forall form w l cs,
    items (current (conn w)) = Ok l ->
    comparisons (current (conn w)) = Ok cs ->
    NoDup (map item_id l) ->
    forallb (fun i => in_int64 (item_id i)) l = true ->
    forallb (proper_row (map item_id l)) cs = true ->
    exists ranked,
      returns (index GET form) w (Render "index.html" (IndexCtx ranked))
      /\ rank_total ranked = 0.
Proof.
  intros form w l cs Hl Hcs Hnd H64 Hp.
  destruct (index_get_run form w l Hl) as [lg H].
  exists (sort_ranked (map (entry w) l)).
  split; [unfold returns; now rewrite H|].
  unfold sort_ranked.
  rewrite <- (rank_total_perm _ _ (sort_by_perm _ (map (entry w) l))).
  unfold rank_total. rewrite map_map.
  rewrite (map_ext_in _ (fun i => elif_rank (item_id i) cs)).
  - rewrite <- (map_map item_id (fun x => elif_rank x cs)).
    now apply elif_ranks_add_up.
  - intros i Hi. simpl. rewrite rank_of_body.
    rewrite forallb_forall in H64.
    rewrite (rank_body_ok (VInt (item_id i)) (item_id i) w cs eq_refl
               (H64 i Hi) Hcs).
    rewrite rank_loop_int_rows; [reflexivity|].
    apply forallb_forall. intros c Hc. apply filter_In in Hc.
    rewrite forallb_forall in Hp.
    exact (proper_row_int_row _ c (Hp c (proj1 Hc))).
Qed.

Lemma listing_ranks_add_up_to_zero_witness :
  exists ranked,
    returns (index GET []) (open_connection no_entropy scenario_B)
      (Render "index.html" (IndexCtx ranked))
    /\ rank_total ranked = 0.
Proof.
  apply (listing_ranks_add_up_to_zero [] (open_connection no_entropy scenario_B)
           [ {| item_id := 1; item_name := "X" |};
             {| item_id := 2; item_name := "Y" |};
             {| item_id := 3; item_name := "Z" |} ]
           [ {| item1_id := VInt 1; item2_id := VInt 2; score := VInt 3 |};
             {| item1_id := VInt 2; item2_id := VInt 3; score := VInt 2 |};
             {| item1_id := VInt 1; item2_id := VInt 3; score := VInt (-1) |} ]);
    try reflexivity.
  simpl. repeat constructor; simpl; intuition discriminate.
Defined.

(** X9. A comparison and the comparison with its two items exchanged and
    its score negated give every item the same rank, provided the two items
    differ. *)
Theorem exchanged_comparison_same_ranks :
  forall v a b s before after w w',
    a <> b ->
    comparisons (current (conn w))
    = Ok (before ++ {| item1_id := VInt a; item2_id := VInt b;
                       score := VInt s |} :: after) ->
    comparisons (current (conn w'))
    = Ok (before ++ {| item1_id := VInt b; item2_id := VInt a;
                       score := VInt (- s) |} :: after) ->
    fst (calculate_relative_rank v w) = fst (calculate_relative_rank v w').
Proof.
  intros v a b s l1 l2 w w' Hab Hw Hw'.
  rewrite !calculate_relative_rank_value. do 2 f_equal.
  unfold rank_body. rewrite Hw, Hw'.
  destruct (py_int v) as [x|e]; simpl; [|reflexivity].
  destruct (bind_param (VInt x)); simpl; [|reflexivity].
  rewrite !filter_app. cbn [filter].
  assert (Em : mentions x {| item1_id := VInt b; item2_id := VInt a;
                             score := VInt (- s) |}
               = mentions x {| item1_id := VInt a; item2_id := VInt b;
                               score := VInt s |})
    by (unfold mentions; simpl; apply orb_comm).
  rewrite Em.
  destruct (mentions x {| item1_id := VInt a; item2_id := VInt b;
                          score := VInt s |}) eqn:E1; [|reflexivity].
  unfold mentions in E1. simpl in E1.
  rewrite !rank_loop_app.
  destruct (rank_loop x 0 (filter (mentions x) l1)) as [t|e]; simpl;
    [|reflexivity].
  unfold rank_step. simpl.
  destruct (a =? x) eqn:Ea, (b =? x) eqn:Eb; simpl.
  - apply Z.eqb_eq in Ea, Eb. congruence.
  - now replace (t - - s) with (t + s) by lia.
  - now replace (t + - s) with (t - s) by lia.
  - discriminate.
Qed.

Lemma exchanged_comparison_same_ranks_witness :
  fst (calculate_relative_rank (VInt 2)
         (open_connection no_entropy scenario_A))
  = fst (calculate_relative_rank (VInt 2)
           (open_connection no_entropy
              {| items := items scenario_A;
                 comparisons :=
                   Ok [ {| item1_id := VInt 2; item2_id := VInt 1;
                           score := VInt (- 5) |} ] |})).
Proof.
  apply (exchanged_comparison_same_ranks (VInt 2) 1 2 5 [] []
           (open_connection no_entropy scenario_A)
           (open_connection no_entropy
              {| items := items scenario_A;
                 comparisons :=
                   Ok [ {| item1_id := VInt 2; item2_id := VInt 1;
                           score := VInt (- 5) |} ] |}));
    [discriminate | reflexivity | reflexivity].
Defined.

Lemma surely_text_kept s :
  surely_text s = true -> sql_integer_literal s = None.
Proof.
  unfold surely_text, sql_integer_literal.
  destruct (ltrim_head sql_is_space s) as [->|(c & r & -> & Hc)];
    [reflexivity|].
  destruct (rtrim_head sql_is_space c r Hc) as [r' ->].
  unfold starts_number. cbv zeta. intro H. apply negb_true_iff in H.
  apply orb_false_iff in H. destruct H as [H H46].
  apply orb_false_iff in H. destruct H as [H H45].
  apply orb_false_iff in H. destruct H as [Hd H43].
  rewrite H43, H45. unfold plain_unsigned. simpl.
  unfold digit_value. cbv zeta. now rewrite Hd.
Qed.

Lemma stored_row_zeroes_rank rnd d l row y trace :
  comparisons d = Ok (l ++ [row]) ->
  mentions y row = true ->
  row_parses row = false ->
  returns (calculate_relative_rank (VInt y))
    (open_connection rnd (replay trace d)) 0.
Proof.
  intros Hd Hm Hbad.
  destruct (replay_extends trace d) as [_ Hext].
  rewrite Hd in Hext. destruct Hext as [more Hmore].
  unfold returns. rewrite calculate_relative_rank_value.
  unfold rank_body. simpl py_int. cbn [rbind].
  change (comparisons (current (conn (open_connection rnd (replay trace d)))))
    with (comparisons (replay trace d)).
  rewrite Hmore. cbn [rbind].
  destruct (bind_param (VInt y)); cbn [rbind or_zero]; [|reflexivity].
  assert (Hin : In row (filter (mentions y) ((l ++ [row]) ++ more))).
  { apply filter_In. split; [|exact Hm].
    apply in_or_app. left. apply in_or_app. right. now left. }
  destruct (rank_loop_raises y row _ Hin
              (fetched_row_raises y row Hm Hbad) 0) as [e ->].
  reflexivity.
Qed.

(** X10. One vote that names an item by an integer literal and gives, as the
    other id, a text that begins no number and that [int] does not convert,
    keeps the rank of the item at 0 for good: once the row is stored, and
    whatever requests follow, [calculate_relative_rank] returns 0 for the
    item. *)
Theorem malformed_vote_zeroes_rank_for_good :
  forall form rnd rnd' d a b p s l y trace,
    form_get form "item1_id" = Some a ->
    form_get form "item2_id" = Some b ->
    form_get form "preference" = Some p ->
    int_of_str p = Ok s ->
    in_int64 s = true ->
    comparisons d = Ok l ->
    (sql_integer_literal b = Some y
     /\ surely_text a = true /\ parses (VStr a) = false)
    \/ (sql_integer_literal a = Some y
        /\ surely_text b = true /\ parses (VStr b) = false) ->
    returns (calculate_relative_rank (VInt y))
      (open_connection rnd'
         (replay trace (handle (PostRecordComparison form) rnd d)))
      0.
Proof.
  intros form rnd rnd' d a b p s l y trace Ha Hb Hp Hs Hr Hl H.
  unfold handle.
  rewrite (record_comparison_stores form rnd d a b p s l Ha Hb Hp Hs Hr Hl).
  eapply stored_row_zeroes_rank; [reflexivity| |];
    destruct H as [(Hy & Ht & Hbad)|(Hy & Ht & Hbad)];
    apply surely_text_kept in Ht;
    unfold mentions, row_parses, integer_affinity;
    cbn [item1_id item2_id score]; rewrite Hy, Ht; simpl sql_eq_int;
    rewrite ?Z.eqb_refl, ?Hbad, ?orb_true_r, ?andb_false_r; reflexivity.
Qed.

Lemma malformed_vote_zeroes_rank_for_good_witness :
  returns (calculate_relative_rank (VInt 2))
    (open_connection no_entropy
       (replay [ (PostRecordComparison
                    [("item1_id", "2"); ("item2_id", "1");
                     ("preference", "100")], no_entropy);
                 (GetIndex, no_entropy) ]
          (handle (PostRecordComparison
                     [("item1_id", "tea"); ("item2_id", "2");
                      ("preference", "1")])
             no_entropy scenario_A)))
    0.
Proof.
  apply (malformed_vote_zeroes_rank_for_good
           [("item1_id", "tea"); ("item2_id", "2"); ("preference", "1")]
           no_entropy no_entropy scenario_A "tea" "2" "1" 1
           [ {| item1_id := VInt 1; item2_id := VInt 2; score := VInt 5 |} ]
           2); try reflexivity.
  left. repeat split.
Defined.

(** ** The dump of the database *)

Section Ordered.
Context {A : Type}.
Variable le : A -> A -> bool.
Hypothesis le_total : forall a b, le a b = true \/ le b a = true.
Hypothesis le_trans :
  forall a b c, le a b = true -> le b c = true -> le a c = true.

Lemma insert_le_sorted x l :
  StronglySorted (fun a b => le a b = true) l ->
  StronglySorted (fun a b => le a b = true) (insert_by le x l).
Proof.
  induction 1 as [|y l Hs IH Hy]; simpl.
  - repeat constructor.
  - destruct (le x y) eqn:E.
    + constructor; [now constructor|].
      constructor; [exact E|].
      eapply Forall_impl; [|exact Hy].
      intros b Hb. now apply (le_trans x y b).
    + constructor; [exact IH|].
      eapply Permutation_Forall; [apply insert_by_perm|].
      constructor; [|exact Hy].
      destruct (le_total x y) as [H|H]; [congruence | exact H].
Qed.

Lemma sort_le_sorted l :
  StronglySorted (fun a b => le a b = true) (sort_by le l).
Proof.
  induction l as [|x l IH]; simpl; [constructor|].
  now apply insert_le_sorted.
Qed.
End Ordered.

Lemma text_leb_total s : forall t, text_leb s t = true \/ text_leb t s = true.
Proof.
  induction s as [|a s IH]; intros [|b t]; simpl; auto.
  destruct (IH t) as [H|H]; rewrite H;
    destruct (code a <? code b) eqn:E1, (code b <? code a) eqn:E2,
             (code a =? code b) eqn:E3, (code b =? code a) eqn:E4;
    simpl; auto; lia.
Qed.

Lemma text_leb_trans s :
  forall t u, text_leb s t = true -> text_leb t u = true -> text_leb s u = true.
Proof.
  induction s as [|a s IH]; intros [|b t] [|c u]; simpl; auto;
    try discriminate.
  intros H1 H2.
  apply orb_true_iff in H1. apply orb_true_iff in H2. apply orb_true_iff.
  destruct H1 as [H1|H1], H2 as [H2|H2].
  - left. lia.
  - apply andb_true_iff in H2. destruct H2 as [H2 _]. left. lia.
  - apply andb_true_iff in H1. destruct H1 as [H1 _]. left. lia.
  - apply andb_true_iff in H1. apply andb_true_iff in H2.
    destruct H1 as [H1 H1'], H2 as [H2 H2'].
    right. apply andb_true_iff. split; [lia|]. now apply (IH t u).
Qed.

Lemma value_leb_total a b : value_leb a b = true \/ value_leb b a = true.
Proof.
  destruct a, b; simpl; auto.
  - destruct (z <=? z0) eqn:E1, (z0 <=? z) eqn:E2; auto; lia.
  - apply text_leb_total.
Qed.

Lemma value_leb_trans a b c :
  value_leb a b = true -> value_leb b c = true -> value_leb a c = true.
Proof.
  destruct a, b, c; simpl; auto; try discriminate.
  - intros. lia.
  - apply text_leb_trans.
Qed.

Lemma comparison_leb_iff c c' :
  comparison_leb c c' = true
  <-> value_leb (item1_id c) (item1_id c') = true
      /\ (value_leb (item1_id c') (item1_id c) = true ->
          value_leb (item2_id c) (item2_id c') = true).
Proof.
  unfold comparison_leb.
  destruct (value_leb (item1_id c) (item1_id c')),
           (value_leb (item1_id c') (item1_id c));
    intuition discriminate.
Qed.

Lemma comparison_leb_total c c' :
  comparison_leb c c' = true \/ comparison_leb c' c = true.
Proof.
  rewrite !comparison_leb_iff.
  destruct (value_leb (item1_id c) (item1_id c')) eqn:E1,
           (value_leb (item1_id c') (item1_id c)) eqn:E2.
  - destruct (value_leb_total (item2_id c) (item2_id c')) as [H|H];
      [left | right]; split; auto.
  - left. split; [reflexivity | discriminate].
  - right. split; [reflexivity | discriminate].
  - destruct (value_leb_total (item1_id c) (item1_id c')); congruence.
Qed.

Lemma comparison_leb_trans c1 c2 c3 :
  comparison_leb c1 c2 = true ->
  comparison_leb c2 c3 = true ->
  comparison_leb c1 c3 = true.
Proof.
  rewrite !comparison_leb_iff. intros [H1 H1'] [H2 H2']. split.
  - eapply value_leb_trans; eassumption.
  - intro H31.
    assert (H32 : value_leb (item1_id c3) (item1_id c2) = true)
      by (eapply value_leb_trans; eassumption).
    assert (H21 : value_leb (item1_id c2) (item1_id c1) = true)
      by (eapply value_leb_trans; eassumption).
    eapply value_leb_trans; [apply H1' | apply H2']; assumption.
Qed.

Lemma strongly_sorted_weaken {A} (R R' : A -> A -> Prop) l :
  (forall a b, R a b -> R' a b) ->
  StronglySorted R l -> StronglySorted R' l.
Proof.
  intro H. induction 1 as [|x l Hs IH Hx]; constructor; [exact IH|].
  eapply Forall_impl; [|exact Hx]. intros b. apply H.
Qed.

(** X11. On a store whose two relations can be read, [GET /database] hands
    the template every row of [items], by ascending id, and every row of
    [comparisons], ordered by [item1_id] and then [item2_id] (NULL before
    integers before text), and leaves the stored database as it was. *)
Theorem database_view_complete_and_ordered :
  forall rnd d l cs,
    items d = Ok l ->
    comparisons d = Ok cs ->
    exists v,
      fst (view_database (open_connection rnd d)) = Ok v
      /\ view_template v = "database_view.html"
      /\ Permutation l (view_items v)
      /\ StronglySorted (fun a b => item_id a <= item_id b) (view_items v)
      /\ Permutation cs (view_comparisons v)
      /\ StronglySorted (fun c c' => comparison_leb c c' = true)
           (view_comparisons v)
      /\ stored_after view_database rnd d = d.
Proof.
  intros rnd d l cs Hl Hcs.
  exists {| view_template := "database_view.html";
            view_items := sort_by (fun a b => item_id a <=? item_id b) l;
            view_comparisons := sort_by comparison_leb cs |}.
  split.
  - unfold view_database, select_items_by_id, select_comparisons_ordered,
      close, open_connection.
    run_handler. rewrite Hl. simpl. rewrite Hcs. reflexivity.
  - cbn [view_template view_items view_comparisons].
    split; [reflexivity|]. split; [apply sort_by_perm|]. split.
    + apply (strongly_sorted_weaken
               (fun a b => (item_id a <=? item_id b) = true));
        [intros a b H; lia|].
      apply sort_le_sorted.
      * intros a b. destruct (item_id a <=? item_id b) eqn:E; auto.
        right. lia.
      * intros a b c. lia.
    + split; [apply sort_by_perm|]. split.
      * apply sort_le_sorted;
          [exact comparison_leb_total | exact comparison_leb_trans].
      * unfold stored_after. now rewrite view_database_committed.
Qed.

Lemma database_view_complete_and_ordered_witness :
  exists v,
    fst (view_database (open_connection no_entropy scenario_B)) = Ok v
    /\ view_template v = "database_view.html"
    /\ Permutation
         [ {| item_id := 1; item_name := "X" |};
           {| item_id := 2; item_name := "Y" |};
           {| item_id := 3; item_name := "Z" |} ]
         (view_items v)
    /\ StronglySorted (fun a b => item_id a <= item_id b) (view_items v)
    /\ Permutation
         [ {| item1_id := VInt 1; item2_id := VInt 2; score := VInt 3 |};
           {| item1_id := VInt 2; item2_id := VInt 3; score := VInt 2 |};
           {| item1_id := VInt 1; item2_id := VInt 3; score := VInt (-1) |} ]
         (view_comparisons v)
    /\ StronglySorted (fun c c' => comparison_leb c c' = true)
         (view_comparisons v)
    /\ stored_after view_database no_entropy scenario_B = scenario_B.
Proof.
  apply (database_view_complete_and_ordered no_entropy scenario_B);
    reflexivity.
Defined.

(** ** Names and their trimmed form *)

(** X12. Submitting a name and submitting the name already trimmed have the
    same effect in every state of the store: the same response, the same
    stored database, the same log. *)
Theorem trimmed_name_same_effect :
  forall form form' n rnd d,
    form_get form "item_name" = Some n ->
    form_get form' "item_name" = Some (strip n) ->
    serve (index POST form) rnd d = serve (index POST form') rnd d.
Proof.
  intros form form' n rnd d Hn Hn'.
  unfold serve, index. run_handler. rewrite Hn, Hn', strip_idempotent.
  destruct (strip n) as [|c r] eqn:E.
  - simpl. now rewrite andb_false_r.
  - assert (Hb : str_bool n = true)
      by (apply strip_nonempty; rewrite E; discriminate).
    now rewrite Hb.
Qed.

Lemma trimmed_name_same_effect_witness :
  serve (index POST [("item_name", "  tea pot ")]) no_entropy scenario_A
  = serve (index POST [("item_name", "tea pot")]) no_entropy scenario_A.
Proof.
  apply (trimmed_name_same_effect [("item_name", "  tea pot ")]
           [("item_name", "tea pot")] "  tea pot " no_entropy scenario_A);
    reflexivity.
Defined.
